(** * Local3dFixSolver: the training / evaluation driver of
    [solvers/c3d_local_fix.py], as a shallow embedding.

    The solver is glue over a tensor framework and over the helpers it
    inherits from [BaselineSolver] and imports from [utils].  Both are taken
    as interfaces (type classes); the methods written in the file itself
    ([build_optimizer], [save_checkpoint], [load_checkpoint], [train],
    [_test]) are translated statement by statement into a small monad that
    threads the solver's attributes, records every call on a collaborator in
    a trace, and propagates Python exceptions. *)

From Stdlib Require Import ZArith String List Lia.
From Stdlib Require PrimFloat.
From stdpp Require Import base option list gmap strings.

Local Open Scope string_scope.
Local Open Scope list_scope.
Local Open Scope Z_scope.

(** ** Exceptions raised by the code or by the calls it makes *)

Inductive Exn :=
| ValueError            (* [raise ValueError()]; an optimizer refusing a state *)
| NotAScalar            (* [Tensor.item()] on a tensor that is not one element *)
| ZeroDivisionError     (* [x % 0] *)
| KeyError (k : string) (* [d[k]] on a missing key *)
| IndexError            (* [l[n]] out of range *)
| FileNotFoundError (f : string)
| TypeError             (* a checkpoint entry of the wrong kind *)
| RuntimeError.         (* [load_state_dict] refusing a state dictionary *)

(** ** Objects exposing [state_dict()] / [load_state_dict()]

    [nn.Module] and [optim.Optimizer] share this interface.  The only fact
    assumed about it: a load that is accepted installs exactly the dictionary
    it was given. *)

Class Stateful (X SD : Type) := {
  state_dict : X -> SD;
  load_state_dict : SD -> X -> option X;
  load_installs : forall sd x x',
    load_state_dict sd x = Some x' -> state_dict x' = sd
}.

(** ** The tensor framework

    Types and operations of the framework, as the file uses them.  Apart
    from [load_state_dict] and [Tensor.item], whose failures are modelled,
    the calls are taken to return: the file catches nothing, so an
    exception raised inside the framework would end the run at that
    point. *)

Class Torch := {
  Scalar : Type;   (* Python floats and zero-dimensional tensors *)
  Tensor : Type;   (* input sequences *)
  Feat : Type;     (* feature tensors returned by the model *)
  Array : Type;    (* numpy arrays of flattened features *)
  Model : Type;    (* the module: parameters, buffers, gradients *)
  MSD : Type;      (* its state dictionary *)
  Optim : Type;    (* an optimizer: hyper-parameters and buffers *)
  OSD : Type;      (* its state dictionary *)
  Kwargs : Type;   (* keyword dictionaries of the configuration *)
  smul : Scalar -> Scalar -> Scalar;
  sadd : Scalar -> Scalar -> Scalar;
  ssub : Scalar -> Scalar -> Scalar;
  szero : Scalar;
  sone : Scalar;
  (* [self.model(x)] in training ([true]) or evaluation ([false]) mode:
     the two features, and the module afterwards *)
  forward : bool -> Model -> Tensor -> (Feat * Feat) * Model;
  (* [loss.backward()]: gradients accumulate in the module *)
  backward : Scalar -> Model -> Model;
  (* [optimizer.zero_grad()] and [optimizer.step()] act on the parameters
     the optimizer was built over, which live in the module *)
  zero_grad : Optim -> Model -> Model;
  optim_step : Optim -> Model -> Optim * Model;
  to_numpy : Feat -> Array;   (* [feat.view(n, -1).data.cpu().numpy()] *)
  num_params : Model -> nat;
  clock : nat -> Scalar;      (* the k-th reading of [time.time()] *)
  model_stateful :: Stateful Model MSD;
  optim_stateful :: Stateful Optim OSD
}.

(** ** Data *)

Inductive Group := Backbone | Top | Local.
Inductive LossTerm := Early | LocalTerm.

(** The sub-modules an optimizer is built over. *)
Inductive Submodule := backbone | spatial_pool | temporal_pool | hpm | local.

Section Solver.
Context `{T : Torch}.

(** One batch of a loader: [seq, view, seq_type, label].  [label] is a
    one-dimensional integer tensor, one entry per sample. *)
Record Batch := {
  seq : Tensor;
  view : list string;
  seq_type : list string;
  label : list Z
}.

Record Loader := {
  dataset_len : nat;
  batches : list Batch
}.

(** [self.cfg], read-only. *)
Record Config := {
  optimizer : string;
  lr_decay_backbone : Kwargs;
  lr_decay_top : Kwargs;
  lr_decay_local : Kwargs;
  early_loss : string;
  early_loss_args : Kwargs;
  early_loss_weight : Kwargs;
  local_loss_weight : Kwargs;
  print_model : bool;
  test_before_train : bool;
  log_interval : Z;
  test_interval : Z;
  num_iter : Z;
  target_acc : option string
}.

(** An entry of the dictionary [save_checkpoint] pickles. *)
Inductive Value :=
| VInt (i : Z)
| VModel (sd : MSD)
| VOptim (sd : OSD).

(** The attributes of [self] the file assigns, with the parts of the
    environment its calls act on: the files written by [torch.save], the
    number of clock readings so far, and the ambient autograd mode
    ([torch.is_grad_enabled()], which the file never sets). *)
Record World := {
  iter : Z;
  model : Model;
  training : bool;
  grad_enabled : bool;
  optimizer_backbone : Optim;
  optimizer_top : Optim;
  optimizer_local : Optim;
  best_acc : list Scalar;
  best_iter : Z;
  fs : gmap string (gmap string Value);
  ticks : nat
}.

Definition set_iter (v : Z) (w : World) : World :=
  {| iter := v; model := model w; training := training w;
     grad_enabled := grad_enabled w;
     optimizer_backbone := optimizer_backbone w;
     optimizer_top := optimizer_top w;
     optimizer_local := optimizer_local w;
     best_acc := best_acc w; best_iter := best_iter w;
     fs := fs w; ticks := ticks w |}.

Definition set_model (v : Model) (w : World) : World :=
  {| iter := iter w; model := v; training := training w;
     grad_enabled := grad_enabled w;
     optimizer_backbone := optimizer_backbone w;
     optimizer_top := optimizer_top w;
     optimizer_local := optimizer_local w;
     best_acc := best_acc w; best_iter := best_iter w;
     fs := fs w; ticks := ticks w |}.

Definition set_training (v : bool) (w : World) : World :=
  {| iter := iter w; model := model w; training := v;
     grad_enabled := grad_enabled w;
     optimizer_backbone := optimizer_backbone w;
     optimizer_top := optimizer_top w;
     optimizer_local := optimizer_local w;
     best_acc := best_acc w; best_iter := best_iter w;
     fs := fs w; ticks := ticks w |}.

Definition optimizer_of (g : Group) (w : World) : Optim :=
  match g with
  | Backbone => optimizer_backbone w
  | Top => optimizer_top w
  | Local => optimizer_local w
  end.

Definition set_optimizer (g : Group) (v : Optim) (w : World) : World :=
  {| iter := iter w; model := model w; training := training w;
     grad_enabled := grad_enabled w;
     optimizer_backbone :=
       match g with Backbone => v | _ => optimizer_backbone w end;
     optimizer_top := match g with Top => v | _ => optimizer_top w end;
     optimizer_local := match g with Local => v | _ => optimizer_local w end;
     best_acc := best_acc w; best_iter := best_iter w;
     fs := fs w; ticks := ticks w |}.

Definition set_best (acc : list Scalar) (i : Z) (w : World) : World :=
  {| iter := iter w; model := model w; training := training w;
     grad_enabled := grad_enabled w;
     optimizer_backbone := optimizer_backbone w;
     optimizer_top := optimizer_top w;
     optimizer_local := optimizer_local w;
     best_acc := acc; best_iter := i;
     fs := fs w; ticks := ticks w |}.

Definition set_fs (v : gmap string (gmap string Value)) (w : World) : World :=
  {| iter := iter w; model := model w; training := training w;
     grad_enabled := grad_enabled w;
     optimizer_backbone := optimizer_backbone w;
     optimizer_top := optimizer_top w;
     optimizer_local := optimizer_local w;
     best_acc := best_acc w; best_iter := best_iter w;
     fs := v; ticks := ticks w |}.

Definition set_ticks (v : nat) (w : World) : World :=
  {| iter := iter w; model := model w; training := training w;
     grad_enabled := grad_enabled w;
     optimizer_backbone := optimizer_backbone w;
     optimizer_top := optimizer_top w;
     optimizer_local := optimizer_local w;
     best_acc := best_acc w; best_iter := best_iter w;
     fs := fs w; ticks := v |}.

(** ** Trace *)

(** What [print_log] is given (the formatted line, kept structured). *)
Inductive LogMsg :=
| MsgSaveCheckpoint (filename : string)
| MsgLoadWeightsOptim (filename : string)
| MsgLoadWeights (filename : string)
| MsgTrainSamples (n : nat)
| MsgTestSamples (n : nat)
| MsgArchitecture
| MsgParameters (n : nat)
| MsgConfigurations (c : Config)
| MsgIter (i n : Z) (data model_time lr_backbone lr_top lr_local
           lw_early lw_local num local_num : Scalar)
| MsgTestFull
| MsgTestLocal
| MsgBest (acc : list Scalar) (i : Z) (dir : string) (time : string).

Inductive Event :=
| EvPrintLog (m : LogMsg)                      (* [self.print_log] *)
| EvAddScalar (tag : string) (v : Scalar) (i : Z) (* [self.writer.add_scalar] *)
| EvLrStep (g : Group) (i : Z) (lr : Scalar)   (* [lr_scheduler_g.step(i)] *)
| EvLwStep (t : LossTerm) (i : Z) (lw : Scalar)(* [x_loss_weight.step(i)] *)
| EvIncrement                                  (* [self.iter += 1] *)
| EvForward (train_mode grad : bool) (x : Tensor)
| EvBackward (loss : Scalar)                   (* [loss.backward()] *)
| EvOptimStep (g : Group)
| EvShowInfo                                   (* [self.show_info()] *)
| EvSave (i : Z)                               (* [self.save()] at counter i *)
| EvLoad                                       (* [self.load()] *)
| EvTest (i : Z)                               (* [self._test()] at counter i *)
| EvCollect (acc : list Scalar).               (* [self.collect(acc)] *)

(** ** The monad: attributes, trace, exceptions *)

Definition M (A : Type) : Type :=
  World -> list Event * (Exn + A * World).

Definition ret {A} (a : A) : M A := fun w => ([], inr (a, w)).

Definition bind {A B} (m : M A) (k : A -> M B) : M B :=
  fun w =>
    match m w with
    | (t1, inl e) => (t1, inl e)
    | (t1, inr (a, w1)) =>
        match k a w1 with
        | (t2, r) => (t1 ++ t2, r)
        end
    end.

#[export] Instance M_ret : MRet M := @ret.
#[export] Instance M_bind : MBind M := fun A B k m => bind m k.

Definition throw {A} (e : Exn) : M A := fun _ => ([], inl e).
Definition emit (ev : Event) : M unit := fun w => ([ev], inr (tt, w)).
Definition gets {A} (f : World -> A) : M A := fun w => ([], inr (f w, w)).
Definition modify (f : World -> World) : M unit := fun w => ([], inr (tt, f w)).

Definition print_log (m : LogMsg) : M unit := emit (EvPrintLog m).

Definition add_scalar (tag : string) (v : Scalar) : M unit :=
  i ← gets iter; emit (EvAddScalar tag v i).

(** [time.time()] *)
Definition now : M Scalar :=
  k ← gets ticks;
  modify (set_ticks (S k));;
  ret (clock k).

(** [a % b] on Python integers: the sign follows the divisor, as [Z.modulo]
    does; a zero divisor raises. *)
Definition py_mod (a b : Z) : M Z :=
  if b =? 0 then throw ZeroDivisionError else ret (a mod b).

(** [l[n]] for a literal index [n >= 0]. *)
Definition py_index (l : list Scalar) (n : nat) : M Scalar :=
  match l !! n with
  | Some x => ret x
  | None => throw IndexError
  end.

(** [d[k]] *)
Definition py_getitem {V} (d : gmap string V) (k : string) : M V :=
  match d !! k with
  | Some v => ret v
  | None => throw (KeyError k)
  end.

(** [label.item()]: defined on a tensor of exactly one element. *)
Definition item (l : list Z) : M Z :=
  match l with
  | [x] => ret x
  | _ => throw NotAScalar
  end.

(** [for x in l: f(x)] *)
Fixpoint for_each {A} (l : list A) (f : A -> M unit) : M unit :=
  match l with
  | [] => ret tt
  | x :: rest => f x;; for_each rest f
  end.

(** ** What the solver inherits and imports

    [BaselineSolver] and [utils] are not part of the file.  Their methods
    are taken as they are called: constructors and pure helpers as
    functions, the hooks [save], [load], [collect] and [show_info] as
    arbitrary transformations of the solver.  [learning_rate_step] and
    [loss_weight_step] stand for [LearningRate.step] and
    [LossWeightDecay.step]: a value that depends on the keyword arguments
    the schedule was built with and on the iteration it is given (the
    learning-rate schedule also writes the rate into its optimizer). *)

Class Baseline := {
  Meter : Type;                                (* [utils.AverageMeter] *)
  meter_new : Meter;
  meter_update : Scalar -> Meter -> Meter;
  meter_reset : Meter -> Meter;
  meter_sum : Meter -> Scalar;
  meter_avg : Meter -> Scalar;
  learning_rate_step : Kwargs -> Z -> Optim -> Scalar * Optim;
  loss_weight_step : Kwargs -> Z -> Scalar;
  build_sgd : Model -> list Submodule -> Optim;    (* [self._build_sgd] *)
  build_adam : Model -> list Submodule -> Optim;   (* [self._build_adam] *)
  build_one_loss : string -> Kwargs -> Feat -> list Z -> Scalar * Scalar;
  build_data : Config -> Loader * Loader;      (* train and test loaders *)
  build_model : Config -> Model;
  compute_accuracy :
    list Array -> list string -> list string -> list Z -> list Scalar;
  convert_time : Scalar -> string;
  work_dir : string;
  save : World -> World;
  load : World -> World;
  collect : list Scalar -> World -> World;
  show_info : World -> World
}.

Context `{B : Baseline}.
Variable cfg : Config.

(** ** [build_optimizer] *)

Definition lr_decay (g : Group) : Kwargs :=
  match g with
  | Backbone => lr_decay_backbone cfg
  | Top => lr_decay_top cfg
  | Local => lr_decay_local cfg
  end.

Definition build_optimizer : M unit :=
  m ← gets model;
  (if String.eqb (optimizer cfg) "SGD" then
     modify (set_optimizer Backbone (build_sgd m [backbone]));;
     modify (set_optimizer Top
               (build_sgd m [spatial_pool; temporal_pool; hpm]));;
     modify (set_optimizer Local (build_sgd m [local]))
   else if String.eqb (optimizer cfg) "Adam" then
     modify (set_optimizer Backbone (build_adam m [backbone]));;
     modify (set_optimizer Top
               (build_adam m [spatial_pool; temporal_pool; hpm]));;
     modify (set_optimizer Local (build_adam m [local]))
   else throw ValueError);;
  (* the three [LearningRate] schedules are bound to the optimizers above
     and to [lr_decay]; see [lr_scheduler_step] *)
  ret tt.

(** [self.lr_scheduler_g.step(i)] *)
Definition lr_scheduler_step (g : Group) (i : Z) : M Scalar :=
  o ← gets (optimizer_of g);
  let r := learning_rate_step (lr_decay g) i o in
  emit (EvLrStep g i r.1);;
  modify (set_optimizer g r.2);;
  ret r.1.

(** ** [build_loss] *)

Definition criterion_early : Feat -> list Z -> Scalar * Scalar :=
  build_one_loss (early_loss cfg) (early_loss_args cfg).

Definition loss_weight (t : LossTerm) : Kwargs :=
  match t with
  | Early => early_loss_weight cfg
  | LocalTerm => local_loss_weight cfg
  end.

(** [self.early_loss_weight.step(i)], [self.local_loss_weight.step(i)] *)
Definition loss_weight_decay_step (t : LossTerm) (i : Z) : M Scalar :=
  let lw := loss_weight_step (loss_weight t) i in
  emit (EvLwStep t i lw);;
  ret lw.

(** ** [save_checkpoint] and [load_checkpoint] *)

(** The dictionary [state] that [save_checkpoint] builds. *)
Definition checkpoint_state (w : World) : gmap string Value :=
  <["optimizer_local" := VOptim (state_dict (optimizer_local w))]>
  (<["optimizer_top" := VOptim (state_dict (optimizer_top w))]>
  (<["optimizer_backbone" := VOptim (state_dict (optimizer_backbone w))]>
  (<["model" := VModel (state_dict (model w))]>
  (<["iteration" := VInt (iter w)]> ∅)))).

Definition save_checkpoint (filename : string) : M Z :=
  state ← gets checkpoint_state;
  modify (fun w => set_fs (<[filename := state]> (fs w)) w);;  (* torch.save *)
  print_log (MsgSaveCheckpoint filename);;
  gets iter.

(** [torch.load(filename)] *)
Definition torch_load (filename : string) : M (gmap string Value) :=
  files ← gets fs;
  match files !! filename with
  | Some state => ret state
  | None => throw (FileNotFoundError filename)
  end.

Definition model_load_state_dict (v : Value) : M unit :=
  match v with
  | VModel sd =>
      m ← gets model;
      match load_state_dict sd m with
      | Some m' => modify (set_model m')
      | None => throw RuntimeError
      end
  | _ => throw TypeError
  end.

Definition optimizer_load_state_dict (g : Group) (v : Value) : M unit :=
  match v with
  | VOptim sd =>
      o ← gets (optimizer_of g);
      match load_state_dict sd o with
      | Some o' => modify (set_optimizer g o')
      | None => throw ValueError
      end
  | _ => throw TypeError
  end.

Definition load_checkpoint (filename : string) (optim : bool) : M Value :=
  state ← torch_load filename;
  it ← py_getitem state "iteration";
  sd ← py_getitem state "model";
  model_load_state_dict sd;;
  (if optim then
     ob ← py_getitem state "optimizer_backbone";
     optimizer_load_state_dict Backbone ob;;
     ot ← py_getitem state "optimizer_top";
     optimizer_load_state_dict Top ot;;
     ol ← py_getitem state "optimizer_local";
     optimizer_load_state_dict Local ol;;
     print_log (MsgLoadWeightsOptim filename)
   else
     print_log (MsgLoadWeights filename));;
  ret it.

(** ** [_test] *)

(** [self.model(x)]: the forward pass runs in the module's current mode and
    under the ambient autograd mode. *)
Definition forward_pass (x : Tensor) : M (Feat * Feat) :=
  w ← gets id;
  emit (EvForward (training w) (grad_enabled w) x);;
  let r := forward (training w) (model w) x in
  modify (set_model r.2);;
  ret r.1.

(** The five lists [_test] fills. *)
Record Collected := {
  full_feat_list : list Array;
  local_feat_list : list Array;
  view_list : list string;
  seq_type_list : list string;
  label_list : list Z
}.

Definition no_records : Collected :=
  {| full_feat_list := []; local_feat_list := []; view_list := [];
     seq_type_list := []; label_list := [] |}.

(** [for i, x in enumerate(self.testloader): ...] *)
Fixpoint test_loop (xs : list Batch) (c : Collected) : M Collected :=
  match xs with
  | [] => ret c
  | x :: rest =>
      feats ← forward_pass (seq x);              (* feat_full, feat_local *)
      l ← item (label x);
      test_loop rest
        {| full_feat_list := full_feat_list c ++ [to_numpy feats.1];
           local_feat_list := local_feat_list c ++ [to_numpy feats.2];
           view_list := view_list c ++ view x;
           seq_type_list := seq_type_list c ++ seq_type x;
           label_list := label_list c ++ [l] |}
  end.

(** The second half of [_test], from [self.print_log('Test Full')] on:
    the accuracies of the two feature lists, their logging, and the
    selection of the one that is returned. *)
Definition score (c : Collected) : M (list Scalar) :=
  print_log MsgTestFull;;
  let acc_full :=
    compute_accuracy (full_feat_list c) (view_list c) (seq_type_list c)
      (label_list c) in
  print_log MsgTestLocal;;
  let acc_local :=
    compute_accuracy (local_feat_list c) (view_list c) (seq_type_list c)
      (label_list c) in
  (if (1 <? length acc_full)%nat then
     a ← py_index acc_full 0; add_scalar "test/fullAccNM" a;;
     a ← py_index acc_full 1; add_scalar "test/fullAccBG" a;;
     a ← py_index acc_full 2; add_scalar "test/fullAccCL" a;;
     a ← py_index acc_local 0; add_scalar "test/localAccNM" a;;
     a ← py_index acc_local 1; add_scalar "test/localAccBG" a;;
     a ← py_index acc_local 2; add_scalar "test/localAccCL" a
   else
     a ← py_index acc_full 0; add_scalar "test/fullAcc" a;;
     a ← py_index acc_local 0; add_scalar "test/localAcc" a);;
  let target := default "full" (target_acc cfg) in
  let accs : gmap string (list Scalar) :=
    <["local" := acc_local]> (<["full" := acc_full]> ∅) in
  py_getitem accs target.

Definition _test (testloader : Loader) : M (list Scalar) :=
  i ← gets iter;
  emit (EvTest i);;
  modify (set_training false);;                       (* self.model.eval() *)
  c ← test_loop (batches testloader) no_records;
  score c.

(** ** [train] *)

(** [meters = defaultdict(lambda: AverageMeter())] *)
Definition meter_of (meters : gmap string Meter) (name : string) : Meter :=
  default meter_new (meters !! name).

Definition meters_update (name : string) (v : Scalar)
    (meters : gmap string Meter) : gmap string Meter :=
  <[name := meter_update v (meter_of meters name)]> meters.

(** The body of [if self.iter % self.cfg.log_interval == 0]. *)
Definition show_log (meters : gmap string Meter)
    (lr_backbone lr_top lr_local lw_early lw_local : Scalar)
  : M (gmap string Meter) :=
  i ← gets iter;
  print_log (MsgIter i (num_iter cfg)
               (meter_sum (meter_of meters "dataTime"))
               (meter_sum (meter_of meters "modelTime"))
               lr_backbone lr_top lr_local lw_early lw_local
               (meter_avg (meter_of meters "lossNum"))
               (meter_avg (meter_of meters "localNum")));;
  for_each ["earlyLoss"; "localLoss"; "lossNum"; "localNum"]
    (fun name =>
       add_scalar ("train/" +:+ name) (meter_avg (meter_of meters name)));;
  let meters := meter_reset <$> meters in
  emit EvShowInfo;; modify show_info;;
  ret meters.

(** [loss = lw_early*early_loss + lw_local*local_loss] *)
Definition total_loss (lw_early lw_local early_loss local_loss : Scalar)
  : Scalar :=
  sadd (smul lw_early early_loss) (smul lw_local local_loss).

(** The second half of the loop body, from [# show log info] to its end:
    the logging, the checkpoint hook, the evaluation and the exit test.
    The result is the meters and whether the body executed [return]. *)
Definition after_step (testloader : Loader) (start_time : Scalar)
    (meters : gmap string Meter)
    (lr_backbone lr_top lr_local lw_early lw_local : Scalar)
  : M (gmap string Meter * bool) :=
  (* show log info *)
  i ← gets iter;
  r ← py_mod i (log_interval cfg);
  meters ← (if r =? 0
            then show_log meters lr_backbone lr_top lr_local lw_early lw_local
            else ret meters);

  (* save checkpoints *)
  i ← gets iter;
  emit (EvSave i);; modify save;;

  (* test *)
  i ← gets iter;
  r ← py_mod i (test_interval cfg);
  (if r =? 0
   then acc ← _test testloader; emit (EvCollect acc);; modify (collect acc)
   else ret tt);;

  i ← gets iter;
  if i =? num_iter cfg then
    acc ← gets best_acc;
    bi ← gets best_iter;
    t ← now;
    print_log (MsgBest acc bi work_dir (convert_time (ssub t start_time)));;
    ret (meters, true)
  else
    ret (meters, false).

(** One pass through the body of [for seq, view, seq_type, label in
    self.trainloader]. *)
Definition train_iteration (testloader : Loader) (start_time : Scalar)
    (meters : gmap string Meter) (end_ : Scalar) (x : Batch)
  : M (gmap string Meter * bool) :=
  modify (set_training true);;                        (* self.model.train() *)
  t ← now;
  let meters := meters_update "dataTime" (ssub t end_) meters in
  end_ ← now;

  i ← gets iter; lr_backbone ← lr_scheduler_step Backbone i;
  i ← gets iter; lr_top ← lr_scheduler_step Top i;
  i ← gets iter; lr_local ← lr_scheduler_step Local i;

  i ← gets iter; lw_early ← loss_weight_decay_step Early i;
  i ← gets iter; lw_local ← loss_weight_decay_step LocalTerm i;

  emit EvIncrement;;
  modify (fun w => set_iter (iter w + 1) w);;          (* self.iter += 1 *)

  (* forward and calculate loss *)
  feats ← forward_pass (seq x);                 (* feat_global, feat_local *)
  let early := criterion_early feats.1 (label x) in
  let early_loss := early.1 in
  let loss_num := early.2 in
  let local := criterion_early feats.2 (label x) in
  let local_loss := local.1 in
  let local_loss_num := local.2 in

  let loss := total_loss lw_early lw_local early_loss local_loss in

  (* backward *)
  modify (fun w => set_model (zero_grad (optimizer_backbone w) (model w)) w);;
  modify (fun w => set_model (zero_grad (optimizer_top w) (model w)) w);;
  modify (fun w => set_model (zero_grad (optimizer_local w) (model w)) w);;
  emit (EvBackward loss);;
  modify (fun w => set_model (backward loss (model w)) w);;
  for_each [Backbone; Top; Local]
    (fun g =>
       emit (EvOptimStep g);;
       modify (fun w =>
                 let r := optim_step (optimizer_of g w) (model w) in
                 set_model r.2 (set_optimizer g r.1 w)));;

  t ← now;
  let meters := meters_update "modelTime" (ssub t end_) meters in
  let meters := meters_update "earlyLoss" early_loss meters in
  let meters := meters_update "localLoss" local_loss meters in
  let meters := meters_update "lossNum" loss_num meters in
  let meters := meters_update "localNum" local_loss_num meters in

  after_step testloader start_time meters
    lr_backbone lr_top lr_local lw_early lw_local.

(** The [for] loop over the train loader: it ends when the body returns or
    when the loader has no further batch. *)
Fixpoint train_loop (testloader : Loader) (start_time : Scalar)
    (meters : gmap string Meter) (end_ : Scalar) (xs : list Batch)
  : M unit :=
  match xs with
  | [] => ret tt
  | x :: rest =>
      '(meters, returned) ← train_iteration testloader start_time meters end_ x;
      if (returned : bool) then ret tt
      else
        end_ ← now;
        train_loop testloader start_time meters end_ rest
  end.

Definition train : M unit :=
  let '(trainloader, testloader) := build_data cfg in   (* self.build_data() *)
  modify (set_model (build_model cfg));;                 (* self.build_model() *)
  build_optimizer;;
  (* self.build_loss(): see [criterion_early], [loss_weight_decay_step] *)
  start_time ← now;
  modify (set_iter 0);;

  (* Print out configurations *)
  print_log (MsgTrainSamples (dataset_len trainloader));;
  print_log (MsgTestSamples (dataset_len testloader));;
  (if print_model cfg then
     print_log MsgArchitecture;;
     m ← gets model;
     print_log (MsgParameters (num_params m))
   else ret tt);;
  print_log (MsgConfigurations cfg);;

  (* Load from previous checkpoints *)
  emit EvLoad;; modify load;;

  (* Test before training *)
  (if test_before_train cfg then _test testloader;; ret tt else ret tt);;

  (* Meters *)
  modify (set_best [szero] (-1));;
  end_ ← now;
  train_loop testloader start_time ∅ end_ (batches trainloader).

End Solver.

(** ** A small instance over the integers

    Scalars, tensors and features are integers, the module is a list of
    weights, an optimizer is a learning rate with a step count.  The
    development is run on it wherever a statement has premises. *)

#[export] Instance weights_stateful : Stateful (list Z) (list Z).
Proof.
  refine {| state_dict := fun m => m;
            load_state_dict := fun sd m =>
              if decide (length sd = length m) then Some sd else None |}.
  intros sd x x'. case_decide; congruence.
Defined.

#[export] Instance pair_stateful : Stateful (Z * Z) (Z * Z).
Proof.
  refine {| state_dict := fun o => o;
            load_state_dict := fun sd _ => Some sd |}.
  intros sd x x'. congruence.
Defined.

Definition zsum (l : list Z) : Z := foldr Z.add 0 l.

#[export] Instance toy_torch : Torch := {|
  Scalar := Z; Tensor := Z; Feat := Z; Array := Z;
  Model := list Z; MSD := list Z; Optim := Z * Z; OSD := Z * Z;
  Kwargs := Z;
  smul := Z.mul; sadd := Z.add; ssub := Z.sub; szero := 0; sone := 1;
  forward := fun _ m x => ((x + zsum m, x - zsum m), m);
  backward := fun _ m => m;
  zero_grad := fun _ m => m;
  optim_step := fun o m => ((o.1, o.2 + 1), (fun p => p - o.1) <$> m);
  to_numpy := fun f => f;
  num_params := fun m => length m;
  clock := fun k => Z.of_nat k;
  model_stateful := weights_stateful;
  optim_stateful := pair_stateful
|}.

Definition toy_batch (k : Z) : Batch :=
  {| seq := k; view := ["090"]; seq_type := ["nm-01"]; label := [k] |}.

Definition toy_trainloader : Loader :=
  {| dataset_len := 12; batches := toy_batch <$> seqZ 1 12 |}.

Definition toy_testloader : Loader :=
  {| dataset_len := 2; batches := [toy_batch 7; toy_batch 8] |}.

#[export] Instance toy_baseline : Baseline := {|
  Meter := Z * Z;
  meter_new := (0, 0);
  meter_update := fun v m => (m.1 + v, m.2 + 1);
  meter_reset := fun _ => (0, 0);
  meter_sum := fun m => m.1;
  meter_avg := fun m => m.1 / m.2;
  learning_rate_step := fun k i o => (Z.max 0 (k - i), (Z.max 0 (k - i), o.2));
  loss_weight_step := fun k i => k;
  build_sgd := fun _ _ => (0, 0);
  build_adam := fun _ _ => (1, 0);
  build_one_loss := fun _ margin f lbl => (f + margin, Z.of_nat (length lbl));
  build_data := fun _ => (toy_trainloader, toy_testloader);
  build_model := fun _ => [1; 2; 3];
  compute_accuracy := fun feats _ _ _ => [zsum feats];
  convert_time := fun _ => "elapsed";
  work_dir := "work";
  save := fun w => set_fs (<["latest" := checkpoint_state w]> (fs w)) w;
  load := fun w => w;
  collect := fun acc w => set_best acc (iter w) w;
  show_info := fun w => w
|}.

Definition toy_cfg : Config :=
  {| optimizer := "SGD";
     lr_decay_backbone := 10; lr_decay_top := 20; lr_decay_local := 30;
     early_loss := "triplet"; early_loss_args := 0;
     early_loss_weight := 1; local_loss_weight := 0;
     print_model := true; test_before_train := false;
     log_interval := 2; test_interval := 5; num_iter := 10;
     target_acc := None |}.

Definition toy_world : World :=
  {| iter := 0; model := [4; 5]; training := false; grad_enabled := true;
     optimizer_backbone := (0, 0); optimizer_top := (0, 0);
     optimizer_local := (0, 0);
     best_acc := []; best_iter := 0; fs := ∅; ticks := 0 |}.

(** A configuration asking for an optimizer the solver does not build. *)
Definition toy_cfg_rmsprop : Config :=
  {| optimizer := "RMSprop";
     lr_decay_backbone := 10; lr_decay_top := 20; lr_decay_local := 30;
     early_loss := "triplet"; early_loss_args := 0;
     early_loss_weight := 1; local_loss_weight := 0;
     print_model := true; test_before_train := false;
     log_interval := 2; test_interval := 5; num_iter := 10;
     target_acc := None |}.

(** The solver some iterations after [toy_world] was saved as "ckpt":
    other weights, other optimizer states, another counter. *)
Definition toy_later : World :=
  {| iter := 3; model := [0; 0]; training := true; grad_enabled := true;
     optimizer_backbone := (7, 3); optimizer_top := (8, 3);
     optimizer_local := (9, 3);
     best_acc := [1]; best_iter := 2;
     fs := {["ckpt" := checkpoint_state toy_world]}; ticks := 9 |}.

(** A test loader whose second batch holds two samples. *)
Definition toy_pairs_loader : Loader :=
  {| dataset_len := 3;
     batches :=
       [ toy_batch 7;
         {| seq := 8; view := ["000"; "018"];
            seq_type := ["nm-01"; "nm-02"]; label := [8; 9] |} ] |}.

(** ** Reading traces *)

Definition is_schedule `{T : Torch} (ev : Event) : bool :=
  match ev with EvLrStep _ _ _ | EvLwStep _ _ _ => true | _ => false end.

Definition is_increment `{T : Torch} (ev : Event) : bool :=
  match ev with EvIncrement => true | _ => false end.

Definition is_forward `{T : Torch} (ev : Event) : bool :=
  match ev with EvForward _ _ _ => true | _ => false end.

Definition is_backward `{T : Torch} (ev : Event) : bool :=
  match ev with EvBackward _ => true | _ => false end.

Definition is_save `{T : Torch} (ev : Event) : bool :=
  match ev with EvSave _ => true | _ => false end.

Definition is_test `{T : Torch} (ev : Event) : bool :=
  match ev with EvTest _ => true | _ => false end.

(** A forward pass that ran without gradient tracking. *)
Definition untracked `{T : Torch} (ev : Event) : Prop :=
  match ev with EvForward _ grad _ => grad = false | _ => True end.

(** The events of an evaluation pass. *)
Definition evaluation_event `{T : Torch} (ev : Event) : Prop :=
  match ev with
  | EvTest _ | EvForward _ _ _ | EvPrintLog _ | EvAddScalar _ _ _ => True
  | _ => False
  end.

(** The events of the logging block. *)
Definition log_event `{T : Torch} (ev : Event) : Prop :=
  match ev with
  | EvPrintLog _ | EvAddScalar _ _ _ | EvShowInfo => True
  | _ => False
  end.

(** The events of the second half of the loop body. *)
Definition periodic_event `{T : Torch} (ev : Event) : Prop :=
  match ev with
  | EvShowInfo | EvSave _ | EvCollect _ => True
  | _ => evaluation_event ev
  end.

(** The forward pass of an evaluation over batch [b], started in [w]. *)
Definition forward_event `{T : Torch} (w : World) (b : Batch) : Event :=
  EvForward false (grad_enabled w) (seq b).

(** A test batch of exactly one sample. *)
Definition single_sample `{T : Torch} (b : Batch) : Prop :=
  length (label b) = 1%nat.

(** A test batch of several samples. *)
Definition multi_sample `{T : Torch} (b : Batch) : Prop :=
  (1 < length (label b))%nat.

(** What [print_log] and [writer.add_scalar] emit. *)
Definition logging_event `{T : Torch} (ev : Event) : Prop :=
  match ev with
  | EvPrintLog _ | EvAddScalar _ _ _ => True
  | _ => False
  end.

(** What [_test] needs of [_compute_accuracy] for its indexing to be in
    range: one score, or at least the three scores NM, BG, CL, whatever
    the features. *)
Definition accuracy_shape `{T : Torch} `{B : !Baseline} : Prop :=
  (forall f v t l, length (compute_accuracy f v t l) = 1%nat) \/
  (forall f v t l, (3 <= length (compute_accuracy f v t l))%nat).

(** [target_acc] is absent from the configuration, or one of the two keys
    of [accs]. *)
Definition target_known `{T : Torch} (cfg : Config) : Prop :=
  target_acc cfg = None \/ target_acc cfg = Some "full" \/
  target_acc cfg = Some "local".

(** The conditions under which an evaluation pass over [tl] returns. *)
Definition evaluation_returns `{T : Torch} `{B : !Baseline}
    (cfg : Config) (tl : Loader) : Prop :=
  Forall single_sample (batches tl) /\ accuracy_shape /\ target_known cfg.

(** The inherited hooks called in the loop leave the counter alone. *)
Definition hooks_keep_iter `{T : Torch} `{B : !Baseline} : Prop :=
  (forall w, iter (save w) = iter w) /\
  (forall w, iter (show_info w) = iter w) /\
  (forall acc w, iter (collect acc w) = iter w).

(** The values one pass of the loop body starting in [w] is expected to
    work with: the rate of each optimizer group and the weight of each loss
    term, taken from the schedules at the counter found in [w], and the two
    loss terms, the criterion applied to the global and to the local
    feature of the batch against its label. *)
Definition scheduled_lr `{T : Torch} `{B : !Baseline}
    (cfg : Config) (g : Group) (w : World) : Scalar :=
  (learning_rate_step (lr_decay cfg g) (iter w) (optimizer_of g w)).1.

Definition scheduled_lw `{T : Torch} `{B : !Baseline}
    (cfg : Config) (t : LossTerm) (w : World) : Scalar :=
  loss_weight_step (loss_weight cfg t) (iter w).

Definition early_term `{T : Torch} `{B : !Baseline}
    (cfg : Config) (x : Batch) (w : World) : Scalar :=
  (criterion_early cfg (forward true (model w) (seq x)).1.1 (label x)).1.

Definition local_term `{T : Torch} `{B : !Baseline}
    (cfg : Config) (x : Batch) (w : World) : Scalar :=
  (criterion_early cfg (forward true (model w) (seq x)).1.2 (label x)).1.

(** The events of the first half of the loop body, up to the update of
    the meters. *)
Definition step_trace `{T : Torch} `{B : !Baseline}
    (cfg : Config) (x : Batch) (w : World) : list Event :=
  [ EvLrStep Backbone (iter w) (scheduled_lr cfg Backbone w);
    EvLrStep Top (iter w) (scheduled_lr cfg Top w);
    EvLrStep Local (iter w) (scheduled_lr cfg Local w);
    EvLwStep Early (iter w) (scheduled_lw cfg Early w);
    EvLwStep LocalTerm (iter w) (scheduled_lw cfg LocalTerm w);
    EvIncrement;
    EvForward true (grad_enabled w) (seq x);
    EvBackward
      (total_loss (scheduled_lw cfg Early w) (scheduled_lw cfg LocalTerm w)
         (early_term cfg x w) (local_term cfg x w));
    EvOptimStep Backbone; EvOptimStep Top; EvOptimStep Local ].

(** The summary printed when the budget is reached, for a solver [w] and
    a clock reading [now]. *)
Definition summary `{T : Torch} `{B : !Baseline}
    (start_time now : Scalar) (w : World) : Event :=
  EvPrintLog
    (MsgBest (best_acc w) (best_iter w) work_dir
       (convert_time (ssub now start_time))).

(** The evaluations due while the counter runs through the [n] values
    from [first] on: one at every multiple of [test_interval]. *)
Definition due_tests `{T : Torch} (cfg : Config) (first n : Z) : list Event :=
  EvTest <$>
    List.filter (fun i => i `mod` test_interval cfg =? 0) (seqZ first n).

(** The optimizer kinds [build_optimizer] knows. *)
Definition known_optimizer `{T : Torch} (cfg : Config) : Prop :=
  optimizer cfg = "SGD" \/ optimizer cfg = "Adam".

(** The inherited [load] leaves the counter at the value [train] gave it:
    the run is not resumed from a later iteration. *)
Definition load_keeps_iter `{T : Torch} `{B : !Baseline} : Prop :=
  forall w, iter (load w) = iter w.

(** A computation all of whose events satisfy [Q], whatever the solver. *)
Definition emits `{T : Torch} {A} (Q : Event -> Prop) (m : M A) : Prop :=
  forall w, Forall Q (m w).1.

(** A computation that leaves [f] of the solver as it found it. *)
Definition keeps `{T : Torch} {A X} (f : World -> X) (m : M A) : Prop :=
  forall w a w', (m w).2 = inr (a, w') -> f w' = f w.

(** ** Milestones of a run

    What is left of a trace when only the periodic actions of the loop are
    kept: the log line of a pass with the counter it prints, the call of
    [show_info], the checkpoint hook and the evaluation with the counter
    they are entered with, the report of an accuracy to [collect], and the
    final summary. *)

Inductive Mark :=
| Logged (i : Z)
| Shown
| Saved (i : Z)
| Tested (i : Z)
| Reported
| Summarised.

Definition mark `{T : Torch} (ev : Event) : option Mark :=
  match ev with
  | EvPrintLog (MsgIter i _ _ _ _ _ _ _ _ _ _) => Some (Logged i)
  | EvPrintLog (MsgBest _ _ _ _) => Some Summarised
  | EvShowInfo => Some Shown
  | EvSave i => Some (Saved i)
  | EvTest i => Some (Tested i)
  | EvCollect _ => Some Reported
  | _ => None
  end.

(** The milestones of the pass that brings the counter to [i]. *)
Definition pass_marks `{T : Torch} (cfg : Config) (i : Z) : list Mark :=
  (if i `mod` log_interval cfg =? 0 then [Logged i; Shown] else [])
    ++ [Saved i]
    ++ (if i `mod` test_interval cfg =? 0 then [Tested i; Reported] else [])
    ++ (if i =? num_iter cfg then [Summarised] else []).

(** The milestones of [n] consecutive passes, the first of which brings
    the counter to [first]. *)
Definition run_marks `{T : Torch} (cfg : Config) (first n : Z) : list Mark :=
  concat (pass_marks cfg <$> seqZ first n).

Definition is_optim_step `{T : Torch} (ev : Event) : bool :=
  match ev with EvOptimStep _ => true | _ => false end.

(** The sub-modules each optimizer group is built over, as
    [build_optimizer] lists them in both of its branches. *)
Definition group_modules (g : Group) : list Submodule :=
  match g with
  | Backbone => [backbone]
  | Top => [spatial_pool; temporal_pool; hpm]
  | Local => [local]
  end.

(** The constructor [build_optimizer] uses for the configured kind. *)
Definition optimizer_builder `{T : Torch} `{B : !Baseline} (cfg : Config)
  : Model -> list Submodule -> Optim :=
  if String.eqb (optimizer cfg) "SGD" then build_sgd else build_adam.

(** What [score] needs of the two accuracy lists for its indexing to be in
    range: with more than one full accuracy it reads positions 0, 1, 2 of
    both lists, otherwise position 0 of both. *)
Definition score_shape `{T : Torch} (acc_full acc_local : list Scalar) : Prop :=
  if (1 <? length acc_full)%nat
  then (3 <= length acc_full)%nat /\ (3 <= length acc_local)%nat
  else length acc_full = 1%nat /\ (1 <= length acc_local)%nat.

(** The two accuracy lists [score] computes from the collected records. *)
Definition full_accuracy `{T : Torch} `{B : !Baseline} (c : Collected)
  : list Scalar :=
  compute_accuracy (full_feat_list c) (view_list c) (seq_type_list c)
    (label_list c).

Definition local_accuracy `{T : Torch} `{B : !Baseline} (c : Collected)
  : list Scalar :=
  compute_accuracy (local_feat_list c) (view_list c) (seq_type_list c)
    (label_list c).

(** The meters after the six updates of a pass entered in [w] with the
    meters [meters] and the clock reading [end_] of the previous pass. *)
Definition step_meters `{T : Torch} `{B : !Baseline} (cfg : Config)
    (meters : gmap string Meter) (end_ : Scalar) (x : Batch) (w : World)
  : gmap string Meter :=
  let feats := (forward true (model w) (seq x)).1 in
  let early := criterion_early cfg feats.1 (label x) in
  let local := criterion_early cfg feats.2 (label x) in
  meters_update "localNum" local.2
    (meters_update "lossNum" early.2
       (meters_update "localLoss" local.1
          (meters_update "earlyLoss" early.1
             (meters_update "modelTime"
                (ssub (clock (S (S (ticks w)))) (clock (S (ticks w))))
                (meters_update "dataTime" (ssub (clock (ticks w)) end_)
                   meters))))).

(** A forward pass in training mode. *)
Definition is_train_forward `{T : Torch} (ev : Event) : bool :=
  match ev with EvForward true _ _ => true | _ => false end.

(** The backward pass and the optimizer steps. *)
Definition is_update `{T : Torch} (ev : Event) : bool :=
  is_backward ev || is_optim_step ev.

(** What an evaluation pass does and nothing else: its entry, forward
    passes in evaluation mode, its two headings and its scalars. *)
Definition eval_only `{T : Torch} (ev : Event) : Prop :=
  match ev with
  | EvTest _ | EvForward false _ _ | EvAddScalar _ _ _
  | EvPrintLog MsgTestFull | EvPrintLog MsgTestLocal => True
  | _ => False
  end.

(** What the second half of the loop body does and nothing else. *)
Definition second_half `{T : Torch} (ev : Event) : Prop :=
  match ev with
  | EvShowInfo | EvSave _ | EvCollect _
  | EvPrintLog (MsgIter _ _ _ _ _ _ _ _ _ _ _)
  | EvPrintLog (MsgBest _ _ _ _) => True
  | _ => eval_only ev
  end.

(** The milestones of the logging block of the pass that brings the
    counter to [i]. *)
Definition log_marks `{T : Torch} (cfg : Config) (i : Z) : list Mark :=
  if i `mod` log_interval cfg =? 0 then [Logged i; Shown] else [].

(** The number of passes of the loop entered with the counter at [start]
    over a loader of [len] batches: up to the budget when it lies ahead
    and within the loader, through the whole loader otherwise. *)
Definition passes `{T : Torch} (cfg : Config) (start : Z) (len : nat) : Z :=
  if (start <? num_iter cfg) && (num_iter cfg - start <=? Z.of_nat len)
  then num_iter cfg - start
  else Z.of_nat len.

(** The solver as [train] hands it to [load]: the module and the three
    optimizers built, the clock read once, the counter at 0. *)
Definition prepared `{T : Torch} `{B : !Baseline} (cfg : Config) (w : World)
  : World :=
  let m := build_model cfg in
  set_iter 0
    (set_ticks (S (ticks w))
       (set_optimizer Local (optimizer_builder cfg m (group_modules Local))
          (set_optimizer Top (optimizer_builder cfg m (group_modules Top))
             (set_optimizer Backbone
                (optimizer_builder cfg m (group_modules Backbone))
                (set_model m w))))).

(** The key of a group's optimizer in a checkpoint. *)
Definition group_key (g : Group) : string :=
  match g with
  | Backbone => "optimizer_backbone"
  | Top => "optimizer_top"
  | Local => "optimizer_local"
  end.

(** A configuration that never logs: [log_interval] is zero. *)
Definition toy_cfg_no_log : Config :=
  {| optimizer := "SGD";
     lr_decay_backbone := 10; lr_decay_top := 20; lr_decay_local := 30;
     early_loss := "triplet"; early_loss_args := 0;
     early_loss_weight := 1; local_loss_weight := 0;
     print_model := true; test_before_train := false;
     log_interval := 0; test_interval := 5; num_iter := 10;
     target_acc := None |}.

(** A configuration whose [test_interval] is zero. *)
Definition toy_cfg_no_test : Config :=
  {| optimizer := "Adam";
     lr_decay_backbone := 10; lr_decay_top := 20; lr_decay_local := 30;
     early_loss := "triplet"; early_loss_args := 0;
     early_loss_weight := 1; local_loss_weight := 0;
     print_model := false; test_before_train := false;
     log_interval := 2; test_interval := 0; num_iter := 10;
     target_acc := Some "local" |}.

(** A configuration whose budget exceeds the twelve batches of
    [toy_trainloader]. *)
Definition toy_cfg_long : Config :=
  {| optimizer := "SGD";
     lr_decay_backbone := 10; lr_decay_top := 20; lr_decay_local := 30;
     early_loss := "triplet"; early_loss_args := 0;
     early_loss_weight := 1; local_loss_weight := 0;
     print_model := false; test_before_train := true;
     log_interval := 4; test_interval := 6; num_iter := 20;
     target_acc := Some "full" |}.

(** The base class of the integer instance with a [load] that resumes at
    iteration [start], as after loading a checkpoint saved there. *)
Definition toy_resumed (start : Z) : Baseline := {|
  Meter := Z * Z;
  meter_new := (0, 0);
  meter_update := fun v m => (m.1 + v, m.2 + 1);
  meter_reset := fun _ => (0, 0);
  meter_sum := fun m => m.1;
  meter_avg := fun m => m.1 / m.2;
  learning_rate_step := fun k i o => (Z.max 0 (k - i), (Z.max 0 (k - i), o.2));
  loss_weight_step := fun k i => k;
  build_sgd := fun _ _ => (0, 0);
  build_adam := fun _ _ => (1, 0);
  build_one_loss := fun _ margin f lbl => (f + margin, Z.of_nat (length lbl));
  build_data := fun _ => (toy_trainloader, toy_testloader);
  build_model := fun _ => [1; 2; 3];
  compute_accuracy := fun feats _ _ _ => [zsum feats];
  convert_time := fun _ => "elapsed";
  work_dir := "work";
  save := fun w => set_fs (<["latest" := checkpoint_state w]> (fs w)) w;
  load := set_iter start;
  collect := fun acc w => set_best acc (iter w) w;
  show_info := fun w => w
|}.

(** The same base class with a [load] that resumes at iteration 15. *)
Definition toy_resuming : Baseline := {|
  Meter := Z * Z;
  meter_new := (0, 0);
  meter_update := fun v m => (m.1 + v, m.2 + 1);
  meter_reset := fun _ => (0, 0);
  meter_sum := fun m => m.1;
  meter_avg := fun m => m.1 / m.2;
  learning_rate_step := fun k i o => (Z.max 0 (k - i), (Z.max 0 (k - i), o.2));
  loss_weight_step := fun k i => k;
  build_sgd := fun _ _ => (0, 0);
  build_adam := fun _ _ => (1, 0);
  build_one_loss := fun _ margin f lbl => (f + margin, Z.of_nat (length lbl));
  build_data := fun _ => (toy_trainloader, toy_testloader);
  build_model := fun _ => [1; 2; 3];
  compute_accuracy := fun feats _ _ _ => [zsum feats];
  convert_time := fun _ => "elapsed";
  work_dir := "work";
  save := fun w => set_fs (<["latest" := checkpoint_state w]> (fs w)) w;
  load := set_iter 15;
  collect := fun acc w => set_best acc (iter w) w;
  show_info := fun w => w
|}.

(** A configuration whose [target_acc] names no accuracy. *)
Definition toy_cfg_bad_target : Config :=
  {| optimizer := "SGD";
     lr_decay_backbone := 10; lr_decay_top := 20; lr_decay_local := 30;
     early_loss := "triplet"; early_loss_args := 0;
     early_loss_weight := 1; local_loss_weight := 0;
     print_model := false; test_before_train := false;
     log_interval := 2; test_interval := 5; num_iter := 10;
     target_acc := Some "best" |}.

(** The records of an evaluation over two batches. *)
Definition toy_records : Collected :=
  {| full_feat_list := [16; 17]; local_feat_list := [-2; -1];
     view_list := ["090"; "090"]; seq_type_list := ["nm-01"; "nm-01"];
     label_list := [7; 8] |}.

(** A checkpoint holding the weights and the iteration only. *)
Definition toy_weights_file : gmap string Value :=
  <["model" := VModel [4; 5]]> (<["iteration" := VInt 40]> ∅).

Definition toy_with_weights_file : World :=
  {| iter := 3; model := [0; 0]; training := true; grad_enabled := true;
     optimizer_backbone := (7, 3); optimizer_top := (8, 3);
     optimizer_local := (9, 3);
     best_acc := [1]; best_iter := 2;
     fs := {["weights" := toy_weights_file]}; ticks := 9 |}.

(** ** An instance over binary64 floats

    Scalars are IEEE 754 double-precision numbers with their own product
    and sum, as the Python floats of the loss weights are.  The model hands
    back the two features its input carries and the criterion is the
    identity on a feature, so that a batch chooses the two loss terms. *)

Definition float_torch : Torch := {|
  Scalar := PrimFloat.float;
  Tensor := PrimFloat.float * PrimFloat.float;
  Feat := PrimFloat.float; Array := PrimFloat.float;
  Model := list Z; MSD := list Z; Optim := Z * Z; OSD := Z * Z;
  Kwargs := PrimFloat.float;
  smul := PrimFloat.mul; sadd := PrimFloat.add; ssub := PrimFloat.sub;
  szero := PrimFloat.zero; sone := PrimFloat.one;
  forward := fun _ m x => (x, m);
  backward := fun _ m => m;
  zero_grad := fun _ m => m;
  optim_step := fun o m => (o, m);
  to_numpy := fun f => f;
  num_params := fun m => length m;
  clock := fun k => PrimFloat.zero;
  model_stateful := weights_stateful;
  optim_stateful := pair_stateful
|}.

Section FloatInstance.
#[local] Existing Instance float_torch | 0.

Definition float_baseline : Baseline := {|
  Meter := unit;
  meter_new := tt;
  meter_update := fun _ m => m;
  meter_reset := fun m => m;
  meter_sum := fun _ => PrimFloat.zero;
  meter_avg := fun _ => PrimFloat.zero;
  learning_rate_step := fun k _ o => (k, o);
  loss_weight_step := fun k _ => k;
  build_sgd := fun _ _ => (0, 0);
  build_adam := fun _ _ => (1, 0);
  build_one_loss := fun _ _ f _ => (f, PrimFloat.one);
  build_data := fun _ => ({| dataset_len := 0; batches := [] |},
                          {| dataset_len := 0; batches := [] |});
  build_model := fun _ => [];
  compute_accuracy := fun feats _ _ _ => feats;
  convert_time := fun _ => "elapsed";
  work_dir := "work";
  save := fun w => w;
  load := fun w => w;
  collect := fun _ w => w;
  show_info := fun w => w
|}.

(** Loss weights (1.0, 0.0). *)
Definition float_cfg : Config :=
  {| optimizer := "SGD";
     lr_decay_backbone := PrimFloat.one; lr_decay_top := PrimFloat.one;
     lr_decay_local := PrimFloat.one;
     early_loss := "triplet"; early_loss_args := PrimFloat.zero;
     early_loss_weight := PrimFloat.one;
     local_loss_weight := PrimFloat.zero;
     print_model := false; test_before_train := false;
     log_interval := 2; test_interval := 5; num_iter := 10;
     target_acc := None |}.

(** A batch whose early loss term is 2.0 and whose local loss term is
    [local]. *)
Definition float_batch (local : PrimFloat.float) : Batch :=
  {| seq := (PrimFloat.two, local); view := ["090"]; seq_type := ["nm-01"];
     label := [1] |}.

Definition float_testloader : Loader :=
  {| dataset_len := 0; batches := [] |}.

Definition float_world : World :=
  {| iter := 0; model := []; training := false; grad_enabled := true;
     optimizer_backbone := (0, 0); optimizer_top := (0, 0);
     optimizer_local := (0, 0);
     best_acc := []; best_iter := 0; fs := ∅; ticks := 0 |}.

End FloatInstance.

(** ** The monad's equations *)

Section Monad.
Context `{T : Torch}.

Lemma bind_unfold {A B} (m : M A) (k : A -> M B) w :
  (m ≫= k) w =
  match m w with
  | (t1, inl e) => (t1, inl e)
  | (t1, inr (a, w1)) => (t1 ++ (k a w1).1, (k a w1).2)
  end.
Proof.
  unfold mbind, M_bind, bind.
  destruct (m w) as [t1 [e | [a w1]]]; [reflexivity |].
  destruct (k a w1); reflexivity.
Qed.

Lemma bind_ok {A B} (m : M A) (k : A -> M B) w t1 a w1 :
  m w = (t1, inr (a, w1)) ->
  (m ≫= k) w = (t1 ++ (k a w1).1, (k a w1).2).
Proof. intros H. rewrite bind_unfold, H. reflexivity. Qed.

Lemma bind_err {A B} (m : M A) (k : A -> M B) w t1 e :
  m w = (t1, inl e) -> (m ≫= k) w = (t1, inl e).
Proof. intros H. rewrite bind_unfold, H. reflexivity. Qed.

Lemma emits_ret {A} Q (a : A) : emits Q (mret a).
Proof. intros w. constructor. Qed.

Lemma emits_throw {A} Q e : emits Q (@throw _ A e).
Proof. intros w. constructor. Qed.

Lemma emits_gets {A} Q (f : World -> A) : emits Q (gets f).
Proof. intros w. constructor. Qed.

Lemma emits_modify Q f : emits Q (modify f).
Proof. intros w. constructor. Qed.

Lemma emits_emit (Q : Event -> Prop) ev : Q ev -> emits Q (emit ev).
Proof. intros H w. repeat constructor. exact H. Qed.

Lemma emits_bind {A B} Q (m : M A) (k : A -> M B) :
  emits Q m -> (forall a, emits Q (k a)) -> emits Q (m ≫= k).
Proof.
  intros Hm Hk w. rewrite bind_unfold.
  specialize (Hm w). destruct (m w) as [t1 [e | [a w1]]]; simpl in *.
  - exact Hm.
  - apply Forall_app. split; [exact Hm | apply Hk].
Qed.

Lemma emits_mono {A} (Q Q' : Event -> Prop) (m : M A) :
  (forall ev, Q ev -> Q' ev) -> emits Q m -> emits Q' m.
Proof. intros HQ Hm w. eapply Forall_impl; [apply Hm | exact HQ]. Qed.

Lemma Forall_filter_nil (Q : Event -> Prop) (p : Event -> bool) l :
  Forall Q l -> (forall ev, Q ev -> p ev = false) -> List.filter p l = [].
Proof.
  intros Hl Hp. induction Hl as [| ev l Hev _ IH].
  - reflexivity.
  - simpl. rewrite (Hp ev Hev). exact IH.
Qed.

Lemma emits_filter_nil {A} (Q : Event -> Prop) (p : Event -> bool)
    (m : M A) w :
  emits Q m -> (forall ev, Q ev -> p ev = false) ->
  List.filter p (m w).1 = [].
Proof.
  intros Hm Hp. eapply Forall_filter_nil; [apply Hm | exact Hp].
Qed.

Lemma keeps_ret {A X} (f : World -> X) (a : A) : keeps f (mret a).
Proof. intros w a' w' H. inversion H. reflexivity. Qed.

Lemma keeps_throw {A X} (f : World -> X) e : keeps f (@throw _ A e).
Proof. intros w a' w' H. inversion H. Qed.

Lemma keeps_gets {A X} (f : World -> X) (g : World -> A) : keeps f (gets g).
Proof. intros w a' w' H. inversion H. reflexivity. Qed.

Lemma keeps_emit {X} (f : World -> X) ev : keeps f (emit ev).
Proof. intros w a' w' H. inversion H. reflexivity. Qed.

Lemma keeps_modify {X} (f : World -> X) g :
  (forall w, f (g w) = f w) -> keeps f (modify g).
Proof. intros Hg w a' w' H. inversion H. apply Hg. Qed.

Lemma keeps_bind {A B X} (f : World -> X) (m : M A) (k : A -> M B) :
  keeps f m -> (forall a, keeps f (k a)) -> keeps f (m ≫= k).
Proof.
  intros Hm Hk w b w'. rewrite bind_unfold.
  specialize (Hm w). destruct (m w) as [t1 [e | [a w1]]]; simpl.
  - discriminate.
  - intros H. rewrite (Hk a w1 b w' H). eapply Hm. reflexivity.
Qed.

End Monad.

Create HintDb emits.
Create HintDb keeps.

(** Decomposes a goal [emits Q m] along the structure of [m]. *)
Ltac emits_tac :=
  repeat first
    [ apply emits_ret | apply emits_throw | apply emits_gets
    | apply emits_modify
    | solve [auto 2 with emits]
    | apply emits_emit; solve [exact I | cbn; auto]
    | match goal with
      | |- emits _ (_ ≫= _) => apply emits_bind; [| intros ?]
      | |- emits _ (match ?x with _ => _ end) => destruct x
      end
    | assumption
    | progress cbn beta ].

(** Same for [keeps f m]. *)
Ltac keeps_tac :=
  repeat first
    [ apply keeps_ret | apply keeps_throw | apply keeps_gets
    | apply keeps_emit
    | solve [auto 2 with keeps]
    | apply keeps_modify; solve [reflexivity | intros []; reflexivity | auto]
    | match goal with
      | |- keeps _ (_ ≫= _) => apply keeps_bind; [| intros ?]
      | |- keeps _ (match ?x with _ => _ end) => destruct x
      end
    | assumption
    | progress cbn beta ].

(** Unfolds the monad's operations, so that a computation applied to a
    solver reduces. *)
Ltac run :=
  repeat progress
    (cbv beta delta
       [mbind mret M_bind M_ret bind ret gets modify emit throw print_log
        add_scalar now];
     cbn).

(** Splits on the conditions met while running a computation. *)
Ltac break_ifs :=
  repeat match goal with
         | |- context [if ?c then _ else _] => destruct c eqn:?; cbn
         end.

(** Closes a goal on a filtered trace whose pieces are known. *)
Ltac filter_tac :=
  repeat first
    [ rewrite List.filter_app
    | match goal with
      | H : List.filter _ _ = _ |- _ => rewrite H
      end
    | progress cbn ];
  try reflexivity.

(** Closes a goal [last (... ++ [x]) = Some x]. *)
Ltac last_tac :=
  unfold summary; cbn;
  repeat first
    [ rewrite last_snoc | rewrite last_singleton | rewrite last_app_cons
    | rewrite last_cons ];
  cbn; reflexivity.

Arguments after_step : simpl never.
Arguments build_optimizer : simpl never.
Arguments train_iteration : simpl never.
Arguments _test : simpl never.
Arguments score : simpl never.
Arguments show_log : simpl never.

Section Properties.
Context `{T : Torch} `{B : !Baseline}.
Variable cfg : Config.

(** *** Optimizer construction *)

Lemma build_optimizer_raises (w : World) :
  optimizer cfg ≠ "SGD" -> optimizer cfg ≠ "Adam" ->
  build_optimizer cfg w = ([], inl ValueError).
Proof.
  intros Hs Ha. unfold build_optimizer.
  apply String.eqb_neq in Hs. apply String.eqb_neq in Ha.
  rewrite Hs, Ha. reflexivity.
Qed.

(** C9. A configuration whose optimizer kind is neither 'SGD' nor 'Adam'
    makes [build_optimizer] raise [ValueError]; [train] raises it during
    set-up, with an empty trace: no scheduler step, no forward pass, no
    increment of the counter has taken place. *)
Theorem unknown_optimizer_fails_before_training (w : World) :
  optimizer cfg ≠ "SGD" -> optimizer cfg ≠ "Adam" ->
  build_optimizer cfg w = ([], inl ValueError) /\
  train cfg w = ([], inl ValueError).
Proof.
  intros Hs Ha. split; [by apply build_optimizer_raises |].
  unfold train. destruct (build_data cfg) as [trainloader testloader].
  rewrite bind_unfold. simpl.
  rewrite bind_unfold, build_optimizer_raises by assumption.
  reflexivity.
Qed.

(** *** Checkpoints *)

Lemma checkpoint_state_lookups (w : World) :
  checkpoint_state w !! "iteration" = Some (VInt (iter w)) /\
  checkpoint_state w !! "model" = Some (VModel (state_dict (model w))) /\
  checkpoint_state w !! "optimizer_backbone"
    = Some (VOptim (state_dict (optimizer_backbone w))) /\
  checkpoint_state w !! "optimizer_top"
    = Some (VOptim (state_dict (optimizer_top w))) /\
  checkpoint_state w !! "optimizer_local"
    = Some (VOptim (state_dict (optimizer_local w))).
Proof. unfold checkpoint_state. repeat split; by simplify_map_eq. Qed.

Lemma save_checkpoint_run (w : World) (f : string) :
  save_checkpoint f w
  = ([EvPrintLog (MsgSaveCheckpoint f)],
     inr (iter w, set_fs (<[f := checkpoint_state w]> (fs w)) w)).
Proof. reflexivity. Qed.

Lemma load_checkpoint_weights (w : World) (f : string)
    (state : gmap string Value) (it : Value) (sd : MSD) (m' : Model) :
  fs w !! f = Some state ->
  state !! "iteration" = Some it ->
  state !! "model" = Some (VModel sd) ->
  load_state_dict sd (model w) = Some m' ->
  load_checkpoint f false w
  = ([EvPrintLog (MsgLoadWeights f)], inr (it, set_model m' w)).
Proof.
  intros Hf Hi Hm Hl.
  unfold load_checkpoint, torch_load, py_getitem, model_load_state_dict.
  run. rewrite Hf. cbn. rewrite Hi. cbn. rewrite Hm. cbn. rewrite Hl.
  reflexivity.
Qed.

Lemma load_checkpoint_all (w : World) (f : string)
    (state : gmap string Value) (it : Value) (sd : MSD) (m' : Model)
    (sb st sl : OSD) (ob ot ol : Optim) :
  fs w !! f = Some state ->
  state !! "iteration" = Some it ->
  state !! "model" = Some (VModel sd) ->
  state !! "optimizer_backbone" = Some (VOptim sb) ->
  state !! "optimizer_top" = Some (VOptim st) ->
  state !! "optimizer_local" = Some (VOptim sl) ->
  load_state_dict sd (model w) = Some m' ->
  load_state_dict sb (optimizer_backbone w) = Some ob ->
  load_state_dict st (optimizer_top w) = Some ot ->
  load_state_dict sl (optimizer_local w) = Some ol ->
  load_checkpoint f true w
  = ([EvPrintLog (MsgLoadWeightsOptim f)],
     inr (it, set_optimizer Local ol
                (set_optimizer Top ot
                   (set_optimizer Backbone ob (set_model m' w))))).
Proof.
  intros Hf Hi Hm Hb Ht Hl Lm Lb Lt Ll.
  unfold load_checkpoint, torch_load, py_getitem, model_load_state_dict,
    optimizer_load_state_dict.
  run. rewrite Hf. cbn. rewrite Hi. cbn. rewrite Hm. cbn. rewrite Lm. cbn.
  rewrite Hb. cbn. rewrite Lb. cbn. rewrite Ht. cbn. rewrite Lt. cbn.
  rewrite Hl. cbn. rewrite Ll. reflexivity.
Qed.

(** C3. Saving with [save_checkpoint] and loading the file back with
    optimizer restoration enabled, into a solver whose module and
    optimizers accept the saved dictionaries, leaves the module and the
    three optimizers with exactly the saved state dictionaries, and
    returns the saved iteration. *)
Theorem save_load_round_trip (w w2 : World) (f : string) :
  let w1 := set_fs (<[f := checkpoint_state w]> (fs w)) w in
  fs w2 !! f = fs w1 !! f ->
  is_Some (load_state_dict (state_dict (model w)) (model w2)) ->
  (forall g, is_Some (load_state_dict (state_dict (optimizer_of g w))
                        (optimizer_of g w2))) ->
  save_checkpoint f w
  = ([EvPrintLog (MsgSaveCheckpoint f)], inr (iter w, w1)) /\
  exists w3,
    load_checkpoint f true w2
    = ([EvPrintLog (MsgLoadWeightsOptim f)], inr (VInt (iter w), w3)) /\
    state_dict (model w3) = state_dict (model w) /\
    (forall g, state_dict (optimizer_of g w3)
               = state_dict (optimizer_of g w)).
Proof.
  intros w1 Hfile [m' Hm] Ho.
  destruct (Ho Backbone) as [ob Hb], (Ho Top) as [ot Ht],
    (Ho Local) as [ol Hl].
  cbn in Hb, Ht, Hl.
  split; [apply save_checkpoint_run |].
  assert (Hst : fs w2 !! f = Some (checkpoint_state w)).
  { rewrite Hfile. unfold w1. cbn. apply lookup_insert_eq. }
  destruct (checkpoint_state_lookups w) as (Ki & Km & Kb & Kt & Kl).
  eexists. split.
  - eapply load_checkpoint_all; eassumption.
  - split; [cbn; by eapply load_installs |].
    intros []; cbn; by eapply load_installs.
Qed.

(** C4. With [optim=False], [load_checkpoint] needs only the entries
    'iteration' and 'model' of the file: the optimizer entries are not
    looked up (removing them from the file changes nothing).  The solver
    afterwards differs from the one before in its module only, which
    carries the loaded weights: the three live optimizers are the ones
    found.  The iteration recorded in the file is returned. *)
Theorem load_without_optimizers (w : World) (f : string)
    (state : gmap string Value) (it : Value) (sd : MSD) (m' : Model) :
  fs w !! f = Some state ->
  state !! "iteration" = Some it ->
  state !! "model" = Some (VModel sd) ->
  load_state_dict sd (model w) = Some m' ->
  let stripped :=
    delete "optimizer_backbone"
      (delete "optimizer_top" (delete "optimizer_local" state)) in
  let w' := set_model m' w in
  load_checkpoint f false w
  = ([EvPrintLog (MsgLoadWeights f)], inr (it, w')) /\
  state_dict (model w') = sd /\
  (forall g, optimizer_of g w' = optimizer_of g w) /\
  load_checkpoint f false (set_fs (<[f := stripped]> (fs w)) w)
  = ([EvPrintLog (MsgLoadWeights f)],
     inr (it, set_fs (<[f := stripped]> (fs w)) w')).
Proof.
  intros Hf Hi Hm Hl stripped w'.
  split; [by eapply load_checkpoint_weights |].
  split; [cbn; by eapply load_installs |].
  split; [by intros [] |].
  rewrite (load_checkpoint_weights
             (set_fs (<[f := stripped]> (fs w)) w) f stripped it sd m').
  - reflexivity.
  - cbn. apply lookup_insert_eq.
  - unfold stripped. by rewrite !lookup_delete_ne.
  - unfold stripped. by rewrite !lookup_delete_ne.
  - exact Hl.
Qed.

(** *** The evaluation pass *)

Lemma forward_pass_emits Q (x : Tensor) :
  (forall a b, Q (EvForward a b x)) -> emits Q (forward_pass x).
Proof.
  intros HQ. unfold forward_pass. apply emits_bind; [apply emits_gets |].
  intros w. apply emits_bind; [apply emits_emit, HQ |]. intros _.
  cbn zeta. emits_tac.
Qed.

Lemma forward_pass_keeps {X} (f : World -> X) (x : Tensor) :
  (forall m w, f (set_model m w) = f w) -> keeps f (forward_pass x).
Proof.
  intros Hf. unfold forward_pass. keeps_tac.
Qed.

Lemma test_loop_emits xs :
  forall c, emits (fun ev => is_forward ev = true) (test_loop xs c).
Proof.
  induction xs as [| x xs IH]; intros c; simpl.
  - apply emits_ret.
  - apply emits_bind; [by apply forward_pass_emits |]. intros feats.
    unfold item. emits_tac; apply IH.
Qed.

Lemma score_emits c : emits logging_event (score cfg c).
Proof. unfold score, py_index, py_getitem, add_scalar. emits_tac. Qed.

Lemma test_emits tl : emits evaluation_event (_test cfg tl).
Proof.
  unfold _test. emits_tac.
  - eapply emits_mono; [| apply test_loop_emits]. by intros [].
  - eapply emits_mono; [| apply score_emits]. by intros [].
Qed.

Lemma test_loop_keeps {X} (f : World -> X) xs :
  (forall m w, f (set_model m w) = f w) ->
  forall c, keeps f (test_loop xs c).
Proof.
  intros Hf. induction xs as [| x xs IH]; intros c; simpl.
  - apply keeps_ret.
  - apply keeps_bind; [by apply forward_pass_keeps |]. intros feats.
    unfold item. keeps_tac; apply IH.
Qed.

Lemma score_keeps c : keeps id (score cfg c).
Proof. unfold score, py_index, py_getitem, add_scalar. keeps_tac. Qed.

Lemma test_keeps_iter tl : keeps iter (_test cfg tl).
Proof.
  unfold _test. keeps_tac; [by apply test_loop_keeps |].
  intros w0 acc w' H. pose proof (score_keeps _ _ _ _ H) as E.
  unfold id in E. by rewrite E.
Qed.


Lemma forward_pass_run (x : Tensor) (w : World) :
  forward_pass x w
  = ([EvForward (training w) (grad_enabled w) x],
     inr ((forward (training w) (model w) x).1,
          set_model (forward (training w) (model w) x).2 w)).
Proof.
  reflexivity.
Qed.

Lemma item_run (l : list Z) (w : World) :
  item l w = match l with
             | [x] => ([], inr (x, w))
             | _ => ([], inl NotAScalar)
             end.
Proof. destruct l as [| x [| y l]]; reflexivity. Qed.

(** The loop over the test loader: one forward pass per batch, in order,
    in evaluation mode and under the ambient autograd mode; it stops with
    [NotAScalar] at the first batch whose label is not a single element,
    and otherwise changes nothing but what the forward passes do to the
    module. *)
Lemma test_loop_spec xs : forall c w,
  training w = false ->
  exists n,
    (test_loop xs c w).1 = forward_event w <$> take n xs /\
    match (test_loop xs c w).2 with
    | inl e => e = NotAScalar /\ Exists (fun b => ~ single_sample b) xs
    | inr (c', w') =>
        n = length xs /\ Forall single_sample xs /\
        w' = set_model (model w') w /\
        ((forall m x, (forward false m x).2 = m) -> w' = w)
    end.
Proof.
  induction xs as [| x xs IH]; intros c w Htr.
  - exists 0%nat. simpl. repeat split; try constructor.
    destruct w; reflexivity.
  - simpl test_loop. rewrite bind_unfold, forward_pass_run, Htr.
    destruct (forward false (model w) (seq x)) as [[ff fl] m1] eqn:Hfw.
    cbn [fst snd]. rewrite bind_unfold, item_run.
    destruct (label x) as [| l [| l2 ls]] eqn:Hl.
    + exists 1%nat. cbn. split; [reflexivity |]. split; [reflexivity |].
      left. unfold single_sample. rewrite Hl. discriminate.
    + cbn [fst snd].
      match goal with
      | |- context [test_loop xs ?c' ?w'] =>
          destruct (IH c' w' Htr) as (n & Ht & Hr);
          destruct (test_loop xs c' w') as [t2 r2]
      end.
      cbn [fst snd] in *. exists (S n). split.
      * rewrite Ht. reflexivity.
      * destruct r2 as [e | [c2 w2]].
        -- destruct Hr as [-> Hex]. split; [reflexivity | by right].
        -- destruct Hr as (-> & Hall & Hw & Hfr). repeat split.
           ++ constructor; [| exact Hall]. unfold single_sample.
              by rewrite Hl.
           ++ rewrite Hw at 1. reflexivity.
           ++ intros Hframe. rewrite (Hfr Hframe).
              specialize (Hframe (model w) (seq x)). rewrite Hfw in Hframe.
              cbn in Hframe. subst m1. destruct w; reflexivity.
    + exists 1%nat. cbn. split; [reflexivity |]. split; [reflexivity |].
      left. unfold single_sample. rewrite Hl. discriminate.
Qed.


Lemma test_unfold tl w :
  _test cfg tl w =
  match test_loop (batches tl) no_records (set_training false w) with
  | (t1, inl e) => (EvTest (iter w) :: t1, inl e)
  | (t1, inr (c, w1)) =>
      (EvTest (iter w) :: t1 ++ (score cfg c w1).1, (score cfg c w1).2)
  end.
Proof.
  unfold _test. rewrite bind_unfold. cbn [gets fst snd].
  rewrite bind_unfold. cbn [emit fst snd].
  rewrite bind_unfold. cbn [modify fst snd].
  rewrite bind_unfold.
  destruct (test_loop _ _ _) as [t1 [e | [c w1]]]; reflexivity.
Qed.

Lemma test_aborts tl w :
  Exists (fun b => ~ single_sample b) (batches tl) ->
  exists tr, _test cfg tl w = (tr, inl NotAScalar).
Proof.
  intros Hex. rewrite test_unfold.
  destruct (test_loop_spec (batches tl) no_records (set_training false w)
              eq_refl) as (n & _ & Hr).
  destruct (test_loop _ _ _) as [t1 [e | [c w1]]]; cbn in Hr.
  - destruct Hr as [-> _]. eauto.
  - destruct Hr as (_ & Hall & _). exfalso.
    apply Exists_exists in Hex as (b & Hin & Hb).
    apply Hb. eapply Forall_forall in Hall; eauto.
Qed.

Lemma test_returns_single tl w tr acc w' :
  _test cfg tl w = (tr, inr (acc, w')) -> Forall single_sample (batches tl).
Proof.
  rewrite test_unfold.
  destruct (test_loop_spec (batches tl) no_records (set_training false w)
              eq_refl) as (n & _ & Hr).
  destruct (test_loop _ _ _) as [t1 [e | [c w1]]]; cbn in Hr.
  - discriminate.
  - intros _. apply Hr.
Qed.

Lemma score_returns c w :
  accuracy_shape -> target_known cfg ->
  exists tr acc, score cfg c w = (tr, inr (acc, w)).
Proof.
  intros Hacc Htarget. unfold score.
  set (acc_full := compute_accuracy (full_feat_list c) _ _ _).
  set (acc_local := compute_accuracy (local_feat_list c) _ _ _).
  assert (Hget : exists acc,
    (<["local" := acc_local]> (<["full" := acc_full]> ∅)
       : gmap string (list Scalar)) !! default "full" (target_acc cfg)
    = Some acc).
  { destruct Htarget as [-> | [-> | ->]]; cbn; eexists; by simplify_map_eq. }
  destruct Hget as [acc Hget]. unfold py_getitem. rewrite Hget.
  destruct Hacc as [H1 | H3].
  - pose proof (H1 (full_feat_list c) (view_list c) (seq_type_list c)
                  (label_list c)) as Hf.
    pose proof (H1 (local_feat_list c) (view_list c) (seq_type_list c)
                  (label_list c)) as Hl.
    fold acc_full in Hf. fold acc_local in Hl.
    destruct acc_full as [| a [| ? ?]]; try discriminate.
    destruct acc_local as [| b [| ? ?]]; try discriminate.
    run. eauto.
  - pose proof (H3 (full_feat_list c) (view_list c) (seq_type_list c)
                  (label_list c)) as Hf.
    pose proof (H3 (local_feat_list c) (view_list c) (seq_type_list c)
                  (label_list c)) as Hl.
    fold acc_full in Hf. fold acc_local in Hl.
    destruct acc_full as [| a1 [| a2 [| a3 ?]]]; cbn in Hf; try lia.
    destruct acc_local as [| b1 [| b2 [| b3 ?]]]; cbn in Hl; try lia.
    run. eauto.
Qed.

Lemma test_returns tl w :
  evaluation_returns cfg tl ->
  exists tr acc w',
    _test cfg tl w = (tr, inr (acc, w')) /\ iter w' = iter w.
Proof.
  intros (Hall & Hacc & Htarget). rewrite test_unfold.
  destruct (test_loop_spec (batches tl) no_records (set_training false w)
              eq_refl) as (n & _ & Hr).
  destruct (test_loop _ _ _) as [t1 [e | [c w1]]]; cbn in Hr.
  - destruct Hr as [_ Hex]. exfalso.
    apply Exists_exists in Hex as (b & Hin & Hb).
    apply Hb. eapply Forall_forall in Hall; eauto.
  - destruct Hr as (_ & _ & Hw & _).
    destruct (score_returns c w1 Hacc Htarget) as (tr & acc & Hs).
    rewrite Hs. cbn. do 3 eexists. split; [reflexivity |].
    rewrite Hw. reflexivity.
Qed.


Lemma filter_forward_events (w : World) (xs : list Batch) :
  List.filter is_forward (forward_event w <$> xs) = forward_event w <$> xs.
Proof.
  induction xs as [| x xs IH]; [reflexivity |]. rewrite fmap_cons.
  change (List.filter is_forward (forward_event w x :: (forward_event w <$> xs)))
    with (forward_event w x
            :: List.filter is_forward (forward_event w <$> xs)).
  by rewrite IH.
Qed.

Lemma test_trace_tests tl w :
  List.filter is_test (_test cfg tl w).1 = [EvTest (iter w)].
Proof.
  rewrite test_unfold.
  pose proof (emits_filter_nil _ is_test _ (set_training false w)
                (test_loop_emits (batches tl) no_records)) as Hl.
  destruct (test_loop _ _ _) as [t1 [e | [c w1]]]; cbn in *.
  - rewrite Hl; [reflexivity | by intros []].
  - rewrite List.filter_app, Hl by (by intros []).
    rewrite (emits_filter_nil _ is_test _ w1 (score_emits c));
      [reflexivity | by intros []].
Qed.

(** C10. An evaluation pass over a loader that has a batch of several
    samples stops with the error of [label.item()]; a pass that returns has
    seen single-sample batches only. *)
Theorem evaluation_needs_single_sample_batches (tl : Loader) (w : World) :
  (Exists multi_sample (batches tl) ->
   exists tr, _test cfg tl w = (tr, inl NotAScalar)) /\
  (forall tr acc w',
     _test cfg tl w = (tr, inr (acc, w')) ->
     Forall single_sample (batches tl)).
Proof.
  split.
  - intros Hex. apply test_aborts.
    eapply Exists_impl; [exact Hex |].
    unfold multi_sample, single_sample. intros b Hb. lia.
  - intros tr acc w'. apply test_returns_single.
Qed.

(** C8, as the code has it.  An evaluation pass puts the module in
    evaluation mode and runs one forward pass per batch of the test loader,
    in order, each under the autograd mode it finds: the pass does not
    switch gradient tracking off.  If forward passes in evaluation mode do
    not write to the module, a pass that returns leaves the solver as it
    found it, mode flag apart: same module, same optimizers, same
    counter. *)
Theorem evaluation_pass_frame (tl : Loader) (w : World) tr r :
  (forall m x, (forward false m x).2 = m) ->
  _test cfg tl w = (tr, r) ->
  (exists n,
     List.filter is_forward tr = forward_event w <$> take n (batches tl)) /\
  forall acc w', r = inr (acc, w') ->
    List.filter is_forward tr = forward_event w <$> batches tl /\
    w' = set_training false w.
Proof.
  intros Hframe. rewrite test_unfold.
  destruct (test_loop_spec (batches tl) no_records (set_training false w)
              eq_refl) as (n & Ht & Hr).
  change (forward_event (set_training false w)) with (forward_event w) in Ht.
  destruct (test_loop _ _ _) as [t1 [e | [c w1]]]; cbn in Ht, Hr;
    intros [= <- <-].
  - split; [| discriminate]. exists n.
    cbn. rewrite Ht. apply filter_forward_events.
  - destruct Hr as (-> & _ & _ & Hw). specialize (Hw Hframe). subst w1.
    assert (Hfw : List.filter is_forward
                    (EvTest (iter w)
                       :: t1 ++ (score cfg c (set_training false w)).1)
                  = forward_event w <$> batches tl).
    { cbn. rewrite List.filter_app, Ht, filter_forward_events.
      rewrite (emits_filter_nil _ is_forward _ _ (score_emits c))
        by (by intros []).
      by rewrite app_nil_r, firstn_all. }
    split.
    + exists (length (batches tl)). by rewrite firstn_all.
    + intros acc w' Hs. split; [exact Hfw |].
      exact (score_keeps c (set_training false w) acc w' Hs).
Qed.

(** *** One pass of the loop body *)

Lemma show_log_run meters lrb lrt lrl lwe lwl w :
  exists tr,
    show_log cfg meters lrb lrt lrl lwe lwl w
    = (tr, inr (meter_reset <$> meters, show_info w)) /\
    Forall log_event tr.
Proof.
  eexists. split; [reflexivity |]. repeat constructor.
Qed.

Lemma train_iteration_unfold tl st meters end_ x w :
  exists meters' w1,
    iter w1 = iter w + 1 /\
    forall tr r,
      after_step cfg tl st meters'
        (scheduled_lr cfg Backbone w) (scheduled_lr cfg Top w)
        (scheduled_lr cfg Local w)
        (scheduled_lw cfg Early w) (scheduled_lw cfg LocalTerm w) w1
      = (tr, r) ->
      train_iteration cfg tl st meters end_ x w
      = (step_trace cfg x w ++ tr, r).
Proof.
  eexists _, _. split; cycle 1.
  - intros tr r H.
    unfold train_iteration, lr_scheduler_step, loss_weight_decay_step,
      forward_pass.
    run. unfold scheduled_lr, scheduled_lw in H. cbn in H. 
    rewrite H. reflexivity.
  - reflexivity.
Qed.

Lemma show_log_emits meters lrb lrt lrl lwe lwl :
  emits periodic_event (show_log cfg meters lrb lrt lrl lwe lwl).
Proof.
  intros w. destruct (show_log_run meters lrb lrt lrl lwe lwl w)
    as (tr & -> & Htr). eapply Forall_impl; [exact Htr |]. by intros [].
Qed.

Lemma show_log_keeps_iter meters lrb lrt lrl lwe lwl :
  hooks_keep_iter ->
  keeps iter (show_log cfg meters lrb lrt lrl lwe lwl).
Proof.
  intros (_ & Hshow & _) w a w'.
  destruct (show_log_run meters lrb lrt lrl lwe lwl w) as (tr & -> & _).
  intros [= _ <-]. apply Hshow.
Qed.

Lemma test_emits_periodic tl : emits periodic_event (_test cfg tl).
Proof. eapply emits_mono; [| apply test_emits]. by intros []. Qed.

#[local] Hint Resolve show_log_emits test_emits_periodic : emits.
#[local] Hint Resolve show_log_keeps_iter test_keeps_iter : keeps.

Lemma after_step_emits tl st meters lrb lrt lrl lwe lwl :
  emits periodic_event (after_step cfg tl st meters lrb lrt lrl lwe lwl).
Proof. unfold after_step, py_mod, now, print_log. emits_tac. Qed.

Lemma after_step_keeps_iter tl st meters lrb lrt lrl lwe lwl :
  hooks_keep_iter ->
  keeps iter (after_step cfg tl st meters lrb lrt lrl lwe lwl).
Proof.
  intros Hhooks. pose proof Hhooks as (Hsave & Hshow & Hcollect).
  unfold after_step, py_mod, now, print_log. keeps_tac.
Qed.

Lemma after_step_saves tl st meters lrb lrt lrl lwe lwl w :
  log_interval cfg ≠ 0 ->
  length (List.filter is_save
            (after_step cfg tl st meters lrb lrt lrl lwe lwl w).1) = 1%nat.
Proof.
  intros Hlog. apply Z.eqb_neq in Hlog.
  unfold after_step, py_mod. rewrite Hlog. run.
  assert (Ht : forall w0, List.filter is_save (_test cfg tl w0).1 = []).
  { intros w0. apply (emits_filter_nil _ _ _ _ (test_emits tl)).
    by intros []. }
  destruct (iter w `mod` log_interval cfg =? 0).
  - destruct (show_log_run meters lrb lrt lrl lwe lwl w) as (t1 & -> & Hl).
    apply (Forall_filter_nil _ is_save) in Hl; [| by intros []].
    cbn. break_ifs;
      try match goal with
          | |- context [_test cfg tl ?w0] =>
              let H := fresh in
              pose proof (Ht w0) as H;
              destruct (_test cfg tl w0) as [? [? | [? ?]]]; cbn in H |- *
          end;
      break_ifs; filter_tac.
  - cbn. break_ifs;
      try match goal with
          | |- context [_test cfg tl ?w0] =>
              let H := fresh in
              pose proof (Ht w0) as H;
              destruct (_test cfg tl w0) as [? [? | [? ?]]]; cbn in H |- *
          end;
      break_ifs; filter_tac.
Qed.

Lemma after_step_needs_log_interval tl st meters lrb lrt lrl lwe lwl w a w' :
  (after_step cfg tl st meters lrb lrt lrl lwe lwl w).2 = inr (a, w') ->
  log_interval cfg ≠ 0.
Proof.
  intros H Hlog. unfold after_step, py_mod in H.
  rewrite Hlog in H. discriminate H.
Qed.

Lemma after_step_returns tl st meters lrb lrt lrl lwe lwl w :
  log_interval cfg ≠ 0 -> test_interval cfg ≠ 0 ->
  hooks_keep_iter -> evaluation_returns cfg tl ->
  exists tr meters' w',
    after_step cfg tl st meters lrb lrt lrl lwe lwl w
    = (tr, inr ((meters', iter w =? num_iter cfg), w')) /\
    iter w' = iter w /\
    List.filter is_test tr
    = (if iter w `mod` test_interval cfg =? 0
       then [EvTest (iter w)] else []) /\
    (iter w = num_iter cfg ->
     exists k, last tr = Some (summary st (clock k) w')).
Proof.
  intros Hlog Htest (Hsave & Hshow & Hcollect) Heval.
  apply Z.eqb_neq in Hlog. apply Z.eqb_neq in Htest.
  unfold after_step, py_mod. rewrite Hlog, Htest. run.
  destruct (iter w `mod` log_interval cfg =? 0);
    [ destruct (show_log_run meters lrb lrt lrl lwe lwl w) as (t1 & -> & Hl);
      apply (Forall_filter_nil _ is_test) in Hl; [| by intros []] | ];
    cbn; rewrite ?Hsave, ?Hshow;
    (destruct (iter w `mod` test_interval cfg =? 0);
     [ match goal with
       | |- context [_test cfg tl ?w0] =>
           destruct (test_returns tl w0 Heval) as (t2 & acc & w2 & Ht & Hi);
           pose proof (test_trace_tests tl w0) as Htt;
           rewrite Ht in Htt |- *; cbn in Htt;
           rewrite ?Hsave, ?Hshow in Htt, Hi
       end | ]);
    cbn; rewrite ?Hcollect, ?Hsave, ?Hshow, ?Hi;
    (destruct (iter w =? num_iter cfg) eqn:Hfin); cbn;
    do 3 eexists; (split; [reflexivity |]); cbn;
    rewrite ?Hcollect, ?Hsave, ?Hshow, ?Hi;
    (split; [reflexivity |]); (split; [filter_tac |]);
    first [ intros _; eexists; last_tac
          | intros E; apply Z.eqb_neq in Hfin; contradiction ].
Qed.

Lemma step_trace_filters x w :
  List.filter is_increment (step_trace cfg x w) = [EvIncrement] /\
  List.filter is_test (step_trace cfg x w) = [] /\
  List.filter is_save (step_trace cfg x w) = [].
Proof. repeat split. Qed.

Lemma train_iteration_returns tl st meters end_ x w :
  log_interval cfg ≠ 0 -> test_interval cfg ≠ 0 ->
  hooks_keep_iter -> evaluation_returns cfg tl ->
  exists tr meters' w',
    train_iteration cfg tl st meters end_ x w
    = (tr, inr ((meters', iter w + 1 =? num_iter cfg), w')) /\
    iter w' = iter w + 1 /\
    List.filter is_increment tr = [EvIncrement] /\
    List.filter is_test tr
    = (if (iter w + 1) `mod` test_interval cfg =? 0
       then [EvTest (iter w + 1)] else []) /\
    (iter w + 1 = num_iter cfg ->
     exists k, last tr = Some (summary st (clock k) w')).
Proof.
  intros Hlog Htest Hhooks Heval.
  destruct (train_iteration_unfold tl st meters end_ x w)
    as (m1 & w1 & Hi & Hrun).
  destruct (after_step_returns tl st m1
              (scheduled_lr cfg Backbone w) (scheduled_lr cfg Top w)
              (scheduled_lr cfg Local w) (scheduled_lw cfg Early w)
              (scheduled_lw cfg LocalTerm w) w1 Hlog Htest Hhooks Heval)
    as (tr & m2 & w' & Ha & Hi' & Htests & Hlast).
  assert (Hinc : List.filter is_increment tr = []).
  { pose proof (f_equal fst Ha) as Hfst. cbn in Hfst. rewrite <- Hfst.
    eapply emits_filter_nil; [apply after_step_emits |]. by intros []. }
  rewrite (Hrun _ _ Ha). rewrite Hi in *.
  destruct (step_trace_filters x w) as (F1 & F2 & _).
  do 3 eexists. split; [reflexivity |]. split; [exact Hi' |].
  split; [| split].
  - rewrite List.filter_app, F1, Hinc. reflexivity.
  - rewrite List.filter_app, F2. exact Htests.
  - intros E. destruct (Hlast E) as [k Hk]. exists k.
    rewrite last_app, Hk. reflexivity.
Qed.

(** *** The loop *)

Lemma now_run w : now w = ([], inr (clock (ticks w), set_ticks (S (ticks w)) w)).
Proof. reflexivity. Qed.

Lemma due_tests_cons first n :
  0 < n ->
  due_tests cfg first n
  = (if first `mod` test_interval cfg =? 0 then [EvTest first] else [])
      ++ due_tests cfg (first + 1) (n - 1).
Proof.
  intros Hn. unfold due_tests. rewrite seqZ_cons by exact Hn.
  replace (Z.succ first) with (first + 1) by lia.
  replace (Z.pred n) with (n - 1) by lia.
  cbn. destruct (first `mod` test_interval cfg =? 0); reflexivity.
Qed.

Lemma train_loop_returns tl st (n : nat) : forall xs meters end_ w,
  log_interval cfg ≠ 0 -> test_interval cfg ≠ 0 ->
  hooks_keep_iter -> evaluation_returns cfg tl ->
  iter w + Z.of_nat (S n) = num_iter cfg ->
  (S n <= length xs)%nat ->
  exists tr w',
    train_loop cfg tl st meters end_ xs w = (tr, inr (tt, w')) /\
    iter w' = num_iter cfg /\
    length (List.filter is_increment tr) = S n /\
    List.filter is_test tr = due_tests cfg (iter w + 1) (Z.of_nat (S n)) /\
    exists k, last tr = Some (summary st (clock k) w').
Proof.
  induction n as [| n IH]; intros xs meters end_ w Hlog Htest Hhooks Heval
    Hbudget Hlen;
    (destruct xs as [| x xs]; [cbn in Hlen; lia |]);
    destruct (train_iteration_returns tl st meters end_ x w
                Hlog Htest Hhooks Heval)
      as (t1 & m1 & w1 & Hrun & Hi & Hinc & Htests & Hlast);
    cbn [train_loop]; rewrite bind_unfold, Hrun; cbn [fst snd].
  - assert (E : iter w + 1 = num_iter cfg) by lia.
    rewrite (proj2 (Z.eqb_eq _ _) E). cbn.
    destruct (Hlast E) as [k Hk].
    exists (t1 ++ []), w1. split; [reflexivity |].
    rewrite app_nil_r. split; [lia |]. split; [by rewrite Hinc |].
    split; [| by exists k].
    rewrite Htests, due_tests_cons by lia. unfold due_tests. cbn.
    by rewrite app_nil_r.
  - assert (E : iter w + 1 ≠ num_iter cfg) by lia.
    rewrite (proj2 (Z.eqb_neq _ _) E). rewrite bind_unfold, now_run.
    cbn [fst snd].
    destruct (IH xs m1 (clock (ticks w1)) (set_ticks (S (ticks w1)) w1)
                Hlog Htest Hhooks Heval)
      as (t2 & w2 & Hloop & Hi2 & Hinc2 & Htests2 & Hlast2).
    { cbn. lia. }
    { cbn in Hlen. lia. }
    rewrite Hloop. cbn. cbn in Htests2.
    exists (t1 ++ t2), w2. split; [reflexivity |]. split; [exact Hi2 |].
    split; [| split].
    + rewrite List.filter_app, length_app, Hinc, Hinc2. reflexivity.
    + rewrite List.filter_app, Htests, Htests2.
      rewrite (due_tests_cons (iter w + 1)) by lia. rewrite Hi.
      do 2 f_equal. lia.
    + destruct Hlast2 as [k Hk]. exists k. by rewrite last_app, Hk.
Qed.

Lemma build_optimizer_returns w :
  known_optimizer cfg ->
  exists w1,
    build_optimizer cfg w = ([], inr (tt, w1)) /\
    iter w1 = iter w /\ ticks w1 = ticks w.
Proof.
  unfold build_optimizer.
  intros [E | E]; rewrite E; cbn; eexists; (split; [reflexivity |]);
    split; reflexivity.
Qed.

Lemma train_returns w :
  known_optimizer cfg ->
  log_interval cfg ≠ 0 -> test_interval cfg ≠ 0 ->
  hooks_keep_iter -> load_keeps_iter ->
  evaluation_returns cfg (build_data cfg).2 ->
  1 <= num_iter cfg ->
  (Z.to_nat (num_iter cfg) <= length (batches (build_data cfg).1))%nat ->
  exists tr w',
    train cfg w = (tr, inr (tt, w')) /\
    iter w' = num_iter cfg /\
    length (List.filter is_increment tr) = Z.to_nat (num_iter cfg) /\
    List.filter is_test tr
    = (if test_before_train cfg then [EvTest 0] else [])
        ++ due_tests cfg 1 (num_iter cfg) /\
    exists k, last tr = Some (summary (clock (ticks w)) (clock k) w').
Proof.
  intros Hopt Hlog Htest Hhooks Hload Heval Hnum Hlen.
  unfold train. destruct (build_data cfg) as [trl tel]. cbn in Heval, Hlen.
  rewrite bind_unfold. cbn [modify fst snd].
  destruct (build_optimizer_returns (set_model (build_model cfg) w) Hopt)
    as (w1 & Hbo & Hi1 & Hk1).
  rewrite bind_unfold, Hbo. cbn [fst snd app]. cbn in Hk1.
  rewrite bind_unfold, now_run, Hk1. cbn [fst snd app].
  run.
  assert (Hn : exists n, num_iter cfg = Z.of_nat (S n)).
  { exists (Z.to_nat (num_iter cfg) - 1)%nat. lia. }
  destruct Hn as [n Hn].
  destruct (print_model cfg), (test_before_train cfg); cbn;
    try match goal with
        | |- context [_test cfg tel ?w0] =>
            destruct (test_returns tel w0 Heval) as (tt & acc & w2 & Ht & Hi);
            pose proof (test_trace_tests tel w0) as Htt;
            pose proof (emits_filter_nil _ is_increment _ w0 (test_emits tel)
                          ltac:(by intros [])) as Hti;
            rewrite Ht in Htt, Hti |- *; cbn in Htt, Hti, Hi;
            rewrite Hload in Htt, Hi
        end;
    cbn;
    match goal with
    | |- context [train_loop cfg tel ?st ?m ?e (batches trl) ?w0] =>
        destruct (train_loop_returns tel st n (batches trl) m e w0
                    Hlog Htest Hhooks Heval)
          as (tl & w3 & Hloop & Hi3 & Hinc & Htests & k & Hk);
        [ cbn; rewrite ?Hi, ?Hload; cbn; lia | lia | ];
        rewrite Hloop; cbn in Htests |- *;
        rewrite ?Hi, ?Hload in Htests; cbn in Htests
    end;
    do 2 eexists; (split; [reflexivity |]); (split; [exact Hi3 |]);
    (split; [filter_tac; rewrite ?Hinc; lia |]);
    (split; [filter_tac; rewrite Hn; reflexivity |]);
    exists k; repeat first [rewrite last_cons | rewrite last_app];
    rewrite Hk; reflexivity.
Qed.

(** With [log_interval = 0] the modulus of the logging block raises: the
    pass stops there, before the checkpoint hook. *)
Remark zero_log_interval_stops_before_save tl st meters end_ x w :
  log_interval cfg = 0 ->
  train_iteration cfg tl st meters end_ x w
  = (step_trace cfg x w, inl ZeroDivisionError).
Proof.
  intros Hlog.
  destruct (train_iteration_unfold tl st meters end_ x w)
    as (m1 & w1 & _ & Hrun).
  rewrite (Hrun [] (inl ZeroDivisionError)); [by rewrite app_nil_r |].
  unfold after_step, py_mod. rewrite Hlog. reflexivity.
Qed.

(** *** The claims on the loop *)

(** C1. In every pass of the loop body the three learning-rate schedules
    and the two loss-weight schedules are stepped with the counter found at
    the start of the pass, in that order and before the one increment of
    the counter; when the inherited hooks leave the counter alone, a pass
    that returns ends with the counter one higher. *)
Theorem schedules_read_counter_before_increment
    (tl : Loader) (st : Scalar) (meters : gmap string Meter)
    (end_ : Scalar) (x : Batch) (w : World) :
  hooks_keep_iter ->
  exists tr r,
    train_iteration cfg tl st meters end_ x w = (tr, r) /\
    List.filter (fun ev => is_schedule ev || is_increment ev) tr
    = [ EvLrStep Backbone (iter w) (scheduled_lr cfg Backbone w);
        EvLrStep Top (iter w) (scheduled_lr cfg Top w);
        EvLrStep Local (iter w) (scheduled_lr cfg Local w);
        EvLwStep Early (iter w) (scheduled_lw cfg Early w);
        EvLwStep LocalTerm (iter w) (scheduled_lw cfg LocalTerm w);
        EvIncrement ] /\
    forall a w', r = inr (a, w') -> iter w' = iter w + 1.
Proof.
  intros Hhooks.
  destruct (train_iteration_unfold tl st meters end_ x w)
    as (m1 & w1 & Hi & Hrun).
  destruct (after_step cfg tl st m1 (scheduled_lr cfg Backbone w)
              (scheduled_lr cfg Top w) (scheduled_lr cfg Local w)
              (scheduled_lw cfg Early w) (scheduled_lw cfg LocalTerm w) w1)
    as [t2 r] eqn:Ha.
  exists (step_trace cfg x w ++ t2), r. split; [by apply Hrun |]. split.
  - rewrite List.filter_app.
    assert (Hq : List.filter (fun ev => is_schedule ev || is_increment ev) t2
                 = []).
    { pose proof (f_equal fst Ha) as Hfst. cbn in Hfst. rewrite <- Hfst.
      eapply emits_filter_nil; [apply after_step_emits |]. by intros []. }
    rewrite Hq. reflexivity.
  - intros a w' ->. rewrite <- Hi.
    eapply (after_step_keeps_iter _ _ _ _ _ _ _ _ Hhooks w1).
    rewrite Ha. reflexivity.
Qed.

(** C2. A pass of the loop body that gets past the logging block, as it
    does whenever [log_interval] is not zero and in particular whenever the
    pass returns, calls [self.save()] exactly once, whatever
    [log_interval], [test_interval] and the rest of the configuration. *)
Theorem save_called_once_per_iteration
    (tl : Loader) (st : Scalar) (meters : gmap string Meter)
    (end_ : Scalar) (x : Batch) (w : World) tr r :
  train_iteration cfg tl st meters end_ x w = (tr, r) ->
  log_interval cfg ≠ 0 \/ (exists a w', r = inr (a, w')) ->
  length (List.filter is_save tr) = 1%nat.
Proof.
  intros Hrun Hcase.
  destruct (train_iteration_unfold tl st meters end_ x w)
    as (m1 & w1 & Hi & Hun).
  destruct (after_step cfg tl st m1 (scheduled_lr cfg Backbone w)
              (scheduled_lr cfg Top w) (scheduled_lr cfg Local w)
              (scheduled_lw cfg Early w) (scheduled_lw cfg LocalTerm w) w1)
    as [t2 r2] eqn:Ha.
  rewrite (Hun _ _ eq_refl) in Hrun. injection Hrun as <- <-.
  assert (Hlog : log_interval cfg ≠ 0).
  { destruct Hcase as [H | (a & w' & ->)]; [exact H |].
    eapply after_step_needs_log_interval. rewrite Ha. reflexivity. }
  pose proof (after_step_saves tl st m1 (scheduled_lr cfg Backbone w)
                (scheduled_lr cfg Top w) (scheduled_lr cfg Local w)
                (scheduled_lw cfg Early w) (scheduled_lw cfg LocalTerm w)
                w1 Hlog) as Hs.
  rewrite Ha in Hs. cbn in Hs |- *. exact Hs.
Qed.


(** C6. In a run of [train] that goes to its budget, the evaluator is
    called at the counter values from 1 to [num_iter] that are multiples
    of [test_interval], once each and in increasing order, and at no other
    iteration; the only other call is the one [test_before_train] asks for,
    before the loop, at counter 0. *)
Theorem evaluator_runs_at_multiples_of_test_interval (w : World) :
  known_optimizer cfg ->
  log_interval cfg ≠ 0 -> test_interval cfg ≠ 0 ->
  hooks_keep_iter -> load_keeps_iter ->
  evaluation_returns cfg (build_data cfg).2 ->
  1 <= num_iter cfg ->
  (Z.to_nat (num_iter cfg) <= length (batches (build_data cfg).1))%nat ->
  exists tr w',
    train cfg w = (tr, inr (tt, w')) /\
    List.filter is_test tr
    = (if test_before_train cfg then [EvTest 0] else [])
        ++ (EvTest <$>
              List.filter (fun i => i `mod` test_interval cfg =? 0)
                (seqZ 1 (num_iter cfg))).
Proof.
  intros Hopt Hlog Htest Hhooks Hload Heval Hnum Hlen.
  destruct (train_returns w Hopt Hlog Htest Hhooks Hload Heval Hnum Hlen)
    as (tr & w' & Hrun & _ & _ & Htests & _).
  exists tr, w'. split; [exact Hrun | exact Htests].
Qed.

End Properties.

(** ** The statements on the integer instance *)

Lemma toy_hooks_keep_iter : hooks_keep_iter.
Proof. repeat split. Defined.

Lemma toy_evaluation_returns :
  evaluation_returns toy_cfg (build_data toy_cfg).2.
Proof.
  split; [| split].
  - repeat constructor.
  - left. reflexivity.
  - left. reflexivity.
Defined.

Lemma schedules_read_counter_before_increment_witness :
  exists tr r,
    train_iteration toy_cfg toy_testloader 0 ∅ 0 (toy_batch 1) toy_later
    = (tr, r) /\
    List.filter (fun ev => is_schedule ev || is_increment ev) tr
    = [ EvLrStep Backbone 3 7; EvLrStep Top 3 17; EvLrStep Local 3 27;
        EvLwStep Early 3 1; EvLwStep LocalTerm 3 0; EvIncrement ] /\
    forall a w', r = inr (a, w') -> iter w' = 4.
Proof.
  exact (schedules_read_counter_before_increment toy_cfg toy_testloader 0 ∅ 0
           (toy_batch 1) toy_later toy_hooks_keep_iter).
Defined.

Lemma save_called_once_per_iteration_witness :
  length (List.filter is_save
            (train_iteration toy_cfg toy_testloader 0 ∅ 0 (toy_batch 1)
               toy_later).1) = 1%nat.
Proof.
  apply (save_called_once_per_iteration toy_cfg toy_testloader 0 ∅ 0
           (toy_batch 1) toy_later _
           (train_iteration toy_cfg toy_testloader 0 ∅ 0 (toy_batch 1)
              toy_later).2).
  - apply surjective_pairing.
  - left. discriminate.
Defined.

Lemma save_load_round_trip_witness :
  exists w3,
    load_checkpoint "ckpt" true toy_later
    = ([EvPrintLog (MsgLoadWeightsOptim "ckpt")], inr (VInt 0, w3)) /\
    model w3 = [4; 5] /\
    forall g, optimizer_of g w3 = (0, 0).
Proof.
  assert (H : fs toy_later !! "ckpt"
              = fs (set_fs (<["ckpt" := checkpoint_state toy_world]>
                              (fs toy_world)) toy_world) !! "ckpt").
  { cbn. by rewrite lookup_insert_eq, lookup_singleton_eq. }
  destruct (save_load_round_trip toy_world toy_later "ckpt" H) as [_ Hload].
  - eexists. reflexivity.
  - intros []; eexists; reflexivity.
  - destruct Hload as (w3 & Hl & Hm & Ho). exists w3.
    split; [exact Hl |]. split; [exact Hm |].
    intros []; [exact (Ho Backbone) | exact (Ho Top) | exact (Ho Local)].
Defined.

Lemma load_without_optimizers_witness :
  load_checkpoint "ckpt" false toy_later
  = ([EvPrintLog (MsgLoadWeights "ckpt")],
     inr (VInt 0, set_model [4; 5] toy_later)) /\
  optimizer_backbone (set_model [4; 5] toy_later) = (7, 3) /\
  optimizer_top (set_model [4; 5] toy_later) = (8, 3) /\
  optimizer_local (set_model [4; 5] toy_later) = (9, 3).
Proof.
  destruct (load_without_optimizers toy_later "ckpt"
              (checkpoint_state toy_world) (VInt 0) [4; 5] [4; 5])
    as (Hl & _ & Ho & _).
  - cbn. by rewrite lookup_singleton_eq.
  - exact (proj1 (checkpoint_state_lookups toy_world)).
  - exact (proj1 (proj2 (checkpoint_state_lookups toy_world))).
  - reflexivity.
  - split; [exact Hl |].
    split; [exact (Ho Backbone) |]. split; [exact (Ho Top) | exact (Ho Local)].
Defined.



Lemma evaluator_runs_at_multiples_of_test_interval_witness :
  exists tr w',
    train toy_cfg toy_world = (tr, inr (tt, w')) /\
    List.filter is_test tr = [EvTest 5; EvTest 10].
Proof.
  apply (evaluator_runs_at_multiples_of_test_interval toy_cfg toy_world).
  - left. reflexivity.
  - discriminate.
  - discriminate.
  - exact toy_hooks_keep_iter.
  - intros w. reflexivity.
  - exact toy_evaluation_returns.
  - cbn. lia.
  - vm_compute. lia.
Defined.

(** C8, as stated, fails: the forward passes of an evaluation run with
    gradient tracking on whenever the pass is entered with it on, as it is
    by default and throughout training. *)
Lemma evaluation_tracks_gradients :
  ~ Forall untracked (_test toy_cfg toy_testloader toy_world).1.
Proof.
  assert (E : exists l,
             (_test toy_cfg toy_testloader toy_world).1
             = EvTest 0 :: EvForward false true 7 :: l)
    by (eexists; reflexivity).
  destruct E as [l E]. rewrite E. intros H.
  apply Forall_cons in H as [_ H]. apply Forall_cons in H as [H _].
  discriminate H.
Qed.

Lemma evaluation_pass_frame_witness :
  (exists n,
     List.filter is_forward (_test toy_cfg toy_testloader toy_later).1
     = forward_event toy_later <$> take n (batches toy_testloader)) /\
  forall acc w',
    (_test toy_cfg toy_testloader toy_later).2 = inr (acc, w') ->
    List.filter is_forward (_test toy_cfg toy_testloader toy_later).1
    = [EvForward false true 7; EvForward false true 8] /\
    w' = set_training false toy_later.
Proof.
  apply (evaluation_pass_frame toy_cfg toy_testloader toy_later).
  - intros m x. reflexivity.
  - apply surjective_pairing.
Defined.

Lemma unknown_optimizer_fails_before_training_witness :
  build_optimizer toy_cfg_rmsprop toy_world = ([], inl ValueError) /\
  train toy_cfg_rmsprop toy_world = ([], inl ValueError).
Proof.
  apply (unknown_optimizer_fails_before_training toy_cfg_rmsprop toy_world);
    discriminate.
Defined.

Lemma evaluation_needs_single_sample_batches_witness :
  exists tr, _test toy_cfg toy_pairs_loader toy_world = (tr, inl NotAScalar).
Proof.
  apply (proj1 (evaluation_needs_single_sample_batches toy_cfg
                  toy_pairs_loader toy_world)).
  right. left. unfold multi_sample. cbn. lia.
Defined.

(** ** Running the instance *)

(** The run of [toy_cfg]: ten passes, a checkpoint call in each, logging
    at every second one, an evaluation at the fifth and the tenth. *)
Example toy_run_counters :
  List.filter (fun ev => is_save ev || is_test ev) (train toy_cfg toy_world).1
  = [ EvSave 1; EvSave 2; EvSave 3; EvSave 4; EvSave 5; EvTest 5;
      EvSave 6; EvSave 7; EvSave 8; EvSave 9; EvSave 10; EvTest 10 ].
Proof. vm_compute. reflexivity. Qed.

(** The first pass of that run. *)
Example toy_first_pass :
  (train_iteration toy_cfg toy_testloader 0 ∅ 0 (toy_batch 1) toy_world).1
  = [ EvLrStep Backbone 0 10; EvLrStep Top 0 20; EvLrStep Local 0 30;
      EvLwStep Early 0 1; EvLwStep LocalTerm 0 0; EvIncrement;
      EvForward true true 1; EvBackward 10;
      EvOptimStep Backbone; EvOptimStep Top; EvOptimStep Local;
      EvSave 1 ].
Proof. vm_compute. reflexivity. Qed.

(** The evaluations of the training run are entered with gradient tracking
    on, and keep it on. *)
Example toy_run_evaluates_with_tracking :
  List.filter
    (fun ev => match ev with EvForward false _ _ => true | _ => false end)
    (train toy_cfg toy_world).1
  = [ EvForward false true 7; EvForward false true 8;
      EvForward false true 7; EvForward false true 8 ].
Proof. vm_compute. reflexivity. Qed.

(** A train loader shorter than the budget: the loop ends with the loader,
    after its two passes, and no summary is printed. *)
Example toy_short_loader :
  let run :=
    train_loop toy_cfg toy_testloader 0 ∅ 0 [toy_batch 1; toy_batch 2]
      toy_world in
  List.filter is_increment run.1 = [EvIncrement; EvIncrement] /\
  last run.1 = Some (EvSave 2) /\
  match run.2 with
  | inr (_, w') => iter w' = 2
  | inl _ => False
  end.
Proof. vm_compute. repeat split. Qed.

(** ** Further properties of the solver *)

Section Further.
Context `{T : Torch} `{B : !Baseline}.
Variable cfg : Config.

(** *** [build_optimizer] *)

(** X1. For both known kinds, [build_optimizer] builds the three optimizers
    with the constructor of that kind over the module found in the solver,
    the backbone one over [backbone], the top one over [spatial_pool],
    [temporal_pool], [hpm], the local one over [local]: no sub-module is
    given to two optimizers and each of the five is given to one.  Nothing
    else of the solver changes and nothing is logged. *)
Theorem build_optimizer_groups (w : World) :
  known_optimizer cfg ->
  exists w',
    build_optimizer cfg w = ([], inr (tt, w')) /\
    (forall g, optimizer_of g w'
               = optimizer_builder cfg (model w) (group_modules g)) /\
    model w' = model w /\ iter w' = iter w /\ fs w' = fs w /\
    NoDup (concat (group_modules <$> [Backbone; Top; Local])) /\
    forall s : Submodule,
      s ∈ concat (group_modules <$> [Backbone; Top; Local]).
Proof.
  intros Hk. unfold build_optimizer, optimizer_builder.
  assert (Hparts :
    NoDup (concat (group_modules <$> [Backbone; Top; Local])) /\
    forall s : Submodule,
      s ∈ concat (group_modules <$> [Backbone; Top; Local])).
  { cbn. split.
    - repeat (apply NoDup_cons; split;
        [intros Hin;
         repeat (apply elem_of_cons in Hin as [Hin | Hin]; [discriminate |]);
         by apply elem_of_nil in Hin |]).
      apply NoDup_nil_2.
    - intros []; set_solver. }
  destruct Hk as [E | E]; rewrite E; cbn; eexists;
    (split; [reflexivity |]); (split; [by intros [] |]);
    repeat (split; [reflexivity |]); exact Hparts.
Qed.

(** *** [save_checkpoint] and [load_checkpoint] *)

(** X2. The failures of [load_checkpoint], in the order the code meets
    them and in both modes: a missing file, a file without 'iteration', a
    file without 'model', a module that refuses the state dictionary.
    Each is raised before anything is logged. *)
Theorem load_checkpoint_failures (f : string) (optim : bool) (w : World) :
  (fs w !! f = None ->
   load_checkpoint f optim w = ([], inl (FileNotFoundError f))) /\
  (forall state, fs w !! f = Some state ->
     (state !! "iteration" = None ->
      load_checkpoint f optim w = ([], inl (KeyError "iteration"))) /\
     (is_Some (state !! "iteration") -> state !! "model" = None ->
      load_checkpoint f optim w = ([], inl (KeyError "model"))) /\
     (is_Some (state !! "iteration") ->
      forall sd, state !! "model" = Some (VModel sd) ->
        load_state_dict sd (model w) = None ->
        load_checkpoint f optim w = ([], inl RuntimeError))).
Proof.
  unfold load_checkpoint, torch_load, py_getitem, model_load_state_dict.
  split; [intros Hf; run; rewrite Hf; reflexivity |].
  intros state Hf. repeat split.
  - intros Hi. run. rewrite Hf. cbn. rewrite Hi. reflexivity.
  - intros [it Hi] Hm. run. rewrite Hf. cbn. rewrite Hi. cbn. rewrite Hm.
    reflexivity.
  - intros [it Hi] sd Hm Hl. run. rewrite Hf. cbn. rewrite Hi. cbn.
    rewrite Hm. cbn. rewrite Hl. reflexivity.
Qed.

(** X3. A checkpoint that holds the weights and the iteration but no
    optimizer entry loads with [optim=False] and raises
    [KeyError('optimizer_backbone')] with [optim=True]. *)
Theorem weights_only_file_needs_optim_false (f : string) (w : World)
    (state : gmap string Value) (it : Value) (sd : MSD) (m' : Model) :
  fs w !! f = Some state ->
  state !! "iteration" = Some it ->
  state !! "model" = Some (VModel sd) ->
  load_state_dict sd (model w) = Some m' ->
  state !! "optimizer_backbone" = None ->
  load_checkpoint f true w = ([], inl (KeyError "optimizer_backbone")) /\
  load_checkpoint f false w
  = ([EvPrintLog (MsgLoadWeights f)], inr (it, set_model m' w)).
Proof.
  intros Hf Hi Hm Hl Hb. split; [| by eapply load_checkpoint_weights].
  unfold load_checkpoint, torch_load, py_getitem, model_load_state_dict.
  run. rewrite Hf. cbn. rewrite Hi. cbn. rewrite Hm. cbn. rewrite Hl. cbn.
  rewrite Hb. reflexivity.
Qed.

(** X4. [load_checkpoint] returns exactly when the file exists, holds
    'iteration' and a 'model' dictionary the module accepts and, with
    [optim=True], holds for each of the three groups an optimizer
    dictionary that the group's optimizer accepts. *)
Theorem load_checkpoint_returns_iff (f : string) (optim : bool) (w : World) :
  (exists tr v w', load_checkpoint f optim w = (tr, inr (v, w'))) <->
  exists state it sd,
    fs w !! f = Some state /\
    state !! "iteration" = Some it /\
    state !! "model" = Some (VModel sd) /\
    is_Some (load_state_dict sd (model w)) /\
    (optim = true ->
     forall g, exists osd,
       state !! group_key g = Some (VOptim osd) /\
       is_Some (load_state_dict osd (optimizer_of g w))).
Proof.
  split.
  - intros (tr & v & w' & H). revert H.
    unfold load_checkpoint, torch_load, py_getitem, model_load_state_dict,
      optimizer_load_state_dict.
    run.
    destruct (fs w !! f) as [state |] eqn:Hf; [| discriminate]. cbn.
    destruct (state !! "iteration") as [it |] eqn:Hi; [| discriminate]. cbn.
    destruct (state !! "model") as [[| sd |] |] eqn:Hm; try discriminate. cbn.
    destruct (load_state_dict sd (model w)) as [m' |] eqn:Hl;
      [| discriminate].
    cbn. intros H. exists state, it, sd.
    repeat (split; [done |]). intros ->. revert H. cbn.
    destruct (state !! "optimizer_backbone") as [[| | sb] |] eqn:Hb;
      try discriminate. cbn.
    destruct (load_state_dict sb (optimizer_backbone w)) as [ob |] eqn:Lb;
      [| discriminate]. cbn.
    destruct (state !! "optimizer_top") as [[| | st] |] eqn:Ht;
      try discriminate. cbn.
    destruct (load_state_dict st (optimizer_top w)) as [ot |] eqn:Lt;
      [| discriminate]. cbn.
    destruct (state !! "optimizer_local") as [[| | sl] |] eqn:Hlo;
      try discriminate. cbn.
    destruct (load_state_dict sl (optimizer_local w)) as [ol |] eqn:Ll;
      [| discriminate]. cbn.
    intros _. intros []; eexists; split; try eassumption; cbn; eauto.
  - intros (state & it & sd & Hf & Hi & Hm & [m' Hl] & Ho).
    destruct optim.
    + destruct (Ho eq_refl Backbone) as (sb & Hb & ob & Lb).
      destruct (Ho eq_refl Top) as (st & Ht & ot & Lt).
      destruct (Ho eq_refl Local) as (sl & Hlo & ol & Ll).
      do 3 eexists. eapply load_checkpoint_all; eassumption.
    + do 3 eexists. eapply load_checkpoint_weights; eassumption.
Qed.

(** X5. [load_checkpoint] returns the recorded iteration and does not
    assign it: after a load that returns, the counter, the best accuracy
    and its iteration, the files and the mode of the module are what they
    were. *)
Theorem load_checkpoint_leaves_counter (f : string) (optim : bool)
    (w : World) tr v w' :
  load_checkpoint f optim w = (tr, inr (v, w')) ->
  iter w' = iter w /\ best_acc w' = best_acc w /\
  best_iter w' = best_iter w /\ fs w' = fs w /\ training w' = training w.
Proof.
  intros H.
  assert (Hk : keeps (fun w => (iter w, best_acc w, best_iter w, fs w,
                                training w))
                 (load_checkpoint f optim)).
  { unfold load_checkpoint, torch_load, py_getitem, model_load_state_dict,
      optimizer_load_state_dict, print_log.
    keeps_tac. }
  specialize (Hk w v w'). rewrite H in Hk. specialize (Hk eq_refl).
  injection Hk as -> -> -> -> ->. repeat split.
Qed.

(** X6. [save_checkpoint] replaces whatever the file held and touches no
    other file: after a second save, under name [g], of a solver that
    found the files as a first save under [f] left them, [g] holds the
    second state, [f] still holds the first when the names differ, and
    every other file is as it was.  Each save returns its counter. *)
Theorem save_checkpoint_overwrites (f g : string) (w w2 : World) :
  fs w2 = fs (set_fs (<[f := checkpoint_state w]> (fs w)) w) ->
  exists w3,
    save_checkpoint g w2
    = ([EvPrintLog (MsgSaveCheckpoint g)], inr (iter w2, w3)) /\
    fs w3 !! g = Some (checkpoint_state w2) /\
    (f ≠ g -> fs w3 !! f = Some (checkpoint_state w)) /\
    (forall h, h ≠ f -> h ≠ g -> fs w3 !! h = fs w !! h).
Proof.
  intros Hfs. eexists. split; [apply save_checkpoint_run |]. cbn.
  rewrite Hfs. cbn. split; [apply lookup_insert_eq |]. split.
  - intros Hne. by rewrite lookup_insert_ne, lookup_insert_eq.
  - intros h Hf Hg. by rewrite !lookup_insert_ne.
Qed.

(** *** One pass of the loop body, event by event *)

Lemma omap_mark_nil (l : list Event) :
  Forall (fun ev => mark ev = None) l -> omap mark l = [].
Proof.
  induction 1 as [| ev l Hev _ IH]; [reflexivity |].
  cbn. rewrite Hev. exact IH.
Qed.

Lemma score_eval_only c : emits eval_only (score cfg c).
Proof. unfold score, py_index, py_getitem, add_scalar, print_log. emits_tac. Qed.

Lemma test_eval_only tl : emits eval_only (_test cfg tl).
Proof.
  intros w. rewrite test_unfold.
  destruct (test_loop_spec (batches tl) no_records (set_training false w)
              eq_refl) as (n & Ht & _).
  assert (Hl : Forall eval_only
                 (forward_event (set_training false w) <$> take n (batches tl))).
  { apply Forall_fmap, Forall_true. intros b. exact I. }
  destruct (test_loop _ _ _) as [t1 [e | [c w1]]]; cbn in Ht |- *;
    rewrite Ht; constructor; try exact I; [exact Hl |].
  apply Forall_app. split; [exact Hl | apply score_eval_only].
Qed.

Lemma score_unmarked c : emits (fun ev => mark ev = None) (score cfg c).
Proof. unfold score, py_index, py_getitem, add_scalar, print_log. emits_tac. Qed.

Lemma test_marks tl w : omap mark (_test cfg tl w).1 = [Tested (iter w)].
Proof.
  rewrite test_unfold.
  pose proof (test_loop_emits (batches tl) no_records (set_training false w))
    as Hl.
  apply (Forall_impl _ (fun ev => mark ev = None)) in Hl;
    [| intros [] H; try discriminate H; reflexivity].
  apply omap_mark_nil in Hl.
  assert (Hs : forall c w1, omap mark (score cfg c w1).1 = []).
  { intros c w1. apply omap_mark_nil, score_unmarked. }
  destruct (test_loop _ _ _) as [t1 [e | [c w1]]]; cbn in Hl |- *.
  - rewrite Hl. reflexivity.
  - rewrite omap_app, Hl, Hs. reflexivity.
Qed.

Lemma show_log_marks meters lrb lrt lrl lwe lwl w :
  omap mark (show_log cfg meters lrb lrt lrl lwe lwl w).1
  = [Logged (iter w); Shown].
Proof. reflexivity. Qed.

Lemma show_log_second_half meters lrb lrt lrl lwe lwl :
  emits second_half (show_log cfg meters lrb lrt lrl lwe lwl).
Proof. intros w. repeat constructor. Qed.

Lemma test_second_half tl : emits second_half (_test cfg tl).
Proof.
  eapply emits_mono; [| apply test_eval_only].
  intros [] H; try exact I; try exact H.
  destruct m; first [exact I | exact H].
Qed.

#[local] Hint Resolve show_log_second_half test_second_half : emits.

Lemma after_step_second_half tl st meters lrb lrt lrl lwe lwl :
  emits second_half (after_step cfg tl st meters lrb lrt lrl lwe lwl).
Proof. unfold after_step, py_mod, now, print_log. emits_tac. Qed.

(** The first half of a pass with the meters it hands on. *)
Lemma train_iteration_meters tl st meters end_ x w :
  exists w1,
    iter w1 = iter w + 1 /\
    forall tr r,
      after_step cfg tl st (step_meters cfg meters end_ x w)
        (scheduled_lr cfg Backbone w) (scheduled_lr cfg Top w)
        (scheduled_lr cfg Local w)
        (scheduled_lw cfg Early w) (scheduled_lw cfg LocalTerm w) w1
      = (tr, r) ->
      train_iteration cfg tl st meters end_ x w
      = (step_trace cfg x w ++ tr, r).
Proof.
  eexists. split; cycle 1.
  - intros tr r H.
    unfold train_iteration, lr_scheduler_step, loss_weight_decay_step,
      forward_pass.
    run. unfold scheduled_lr, scheduled_lw, step_meters in H. cbn in H.
    rewrite H. reflexivity.
  - reflexivity.
Qed.

(** Rewrites the milestones of a trace whose pieces are known. *)
Ltac marks_tac :=
  repeat first
    [ rewrite omap_app
    | match goal with
      | H : omap mark _ = _ |- _ => rewrite H
      end
    | progress cbn ];
  try reflexivity.

Lemma after_step_marks tl st meters lrb lrt lrl lwe lwl w :
  log_interval cfg ≠ 0 -> test_interval cfg ≠ 0 ->
  hooks_keep_iter -> evaluation_returns cfg tl ->
  exists tr w',
    after_step cfg tl st meters lrb lrt lrl lwe lwl w
    = (tr, inr ((if iter w `mod` log_interval cfg =? 0
                 then meter_reset <$> meters else meters,
                 iter w =? num_iter cfg), w')) /\
    iter w' = iter w /\
    omap mark tr = pass_marks cfg (iter w).
Proof.
  intros Hlog Htest (Hsave & Hshow & Hcollect) Heval.
  apply Z.eqb_neq in Hlog. apply Z.eqb_neq in Htest.
  unfold after_step, py_mod, pass_marks. rewrite Hlog, Htest. run.
  destruct (iter w `mod` log_interval cfg =? 0);
    [ pose proof (show_log_marks meters lrb lrt lrl lwe lwl w) as Hm;
      destruct (show_log_run cfg meters lrb lrt lrl lwe lwl w) as (t1 & Hs & _);
      rewrite Hs in Hm |- *; cbn in Hm | ];
    cbn; rewrite ?Hsave, ?Hshow;
    (destruct (iter w `mod` test_interval cfg =? 0);
     [ match goal with
       | |- context [_test cfg tl ?w0] =>
           destruct (test_returns cfg tl w0 Heval) as (t2 & acc & w2 & Ht & Hi);
           pose proof (test_marks tl w0) as Htt;
           rewrite Ht in Htt |- *; cbn in Htt;
           rewrite ?Hsave, ?Hshow in Htt, Hi
       end | ]);
    cbn; rewrite ?Hcollect, ?Hsave, ?Hshow, ?Hi;
    (destruct (iter w =? num_iter cfg)); cbn;
    do 2 eexists; (split; [reflexivity |]); cbn;
    rewrite ?Hcollect, ?Hsave, ?Hshow, ?Hi;
    (split; [reflexivity |]); marks_tac.
Qed.

Lemma train_iteration_pass tl st meters end_ x w :
  log_interval cfg ≠ 0 -> test_interval cfg ≠ 0 ->
  hooks_keep_iter -> evaluation_returns cfg tl ->
  exists tr w',
    train_iteration cfg tl st meters end_ x w
    = (tr, inr ((if (iter w + 1) `mod` log_interval cfg =? 0
                 then meter_reset <$> step_meters cfg meters end_ x w
                 else step_meters cfg meters end_ x w,
                 iter w + 1 =? num_iter cfg), w')) /\
    iter w' = iter w + 1 /\
    omap mark tr = pass_marks cfg (iter w + 1).
Proof.
  intros Hlog Htest Hhooks Heval.
  destruct (train_iteration_meters tl st meters end_ x w)
    as (w1 & Hi & Hrun).
  destruct (after_step_marks tl st (step_meters cfg meters end_ x w)
              (scheduled_lr cfg Backbone w) (scheduled_lr cfg Top w)
              (scheduled_lr cfg Local w) (scheduled_lw cfg Early w)
              (scheduled_lw cfg LocalTerm w) w1 Hlog Htest Hhooks Heval)
    as (tr & w' & Ha & Hi' & Hm).
  rewrite Hi in *. rewrite (Hrun _ _ Ha).
  do 2 eexists. split; [reflexivity |]. split; [exact Hi' |].
  rewrite omap_app, Hm. reflexivity.
Qed.

Lemma after_step_meters tl st meters lrb lrt lrl lwe lwl w tr meters' b w' :
  after_step cfg tl st meters lrb lrt lrl lwe lwl w
  = (tr, inr ((meters', b), w')) ->
  meters' = if iter w `mod` log_interval cfg =? 0
            then meter_reset <$> meters else meters.
Proof.
  unfold after_step, py_mod. run.
  repeat match goal with
         | |- context [show_log cfg ?m ?a1 ?a2 ?a3 ?a4 ?a5 ?w0] =>
             destruct (show_log_run cfg m a1 a2 a3 a4 a5 w0) as (? & -> & _);
             cbn
         | |- context [_test cfg tl ?w0] =>
             destruct (_test cfg tl w0) as [? [? | [? ?]]]; cbn
         | |- context [if ?c then _ else _] => destruct c; cbn
         end;
    intros H; try discriminate H; injection H as _ -> _ _; reflexivity.
Qed.

Lemma after_step_zero_interval tl st meters lrb lrt lrl lwe lwl w :
  hooks_keep_iter ->
  log_interval cfg = 0 \/ test_interval cfg = 0 ->
  exists tr,
    after_step cfg tl st meters lrb lrt lrl lwe lwl w
    = (tr, inl ZeroDivisionError) /\
    omap mark tr
    = if log_interval cfg =? 0 then []
      else log_marks cfg (iter w) ++ [Saved (iter w)].
Proof.
  intros (Hsave & Hshow & Hcollect) Hz.
  unfold after_step, py_mod, log_marks.
  destruct (log_interval cfg =? 0) eqn:Hlog.
  - eexists. split; reflexivity.
  - destruct Hz as [Hz | Hz]; [rewrite Hz in Hlog; discriminate Hlog |].
    rewrite Hz. run.
    destruct (iter w `mod` log_interval cfg =? 0);
      [ pose proof (show_log_marks meters lrb lrt lrl lwe lwl w) as Hm;
        destruct (show_log_run cfg meters lrb lrt lrl lwe lwl w)
          as (t1 & Hs & _);
        rewrite Hs in Hm |- *; cbn in Hm | ];
      cbn; eexists; (split; [reflexivity |]); rewrite ?Hshow; marks_tac.
Qed.

Lemma after_step_failed_evaluation tl st meters lrb lrt lrl lwe lwl w :
  log_interval cfg ≠ 0 -> test_interval cfg ≠ 0 ->
  hooks_keep_iter ->
  iter w `mod` test_interval cfg = 0 ->
  Exists (fun b => ~ single_sample b) (batches tl) ->
  exists tr,
    after_step cfg tl st meters lrb lrt lrl lwe lwl w
    = (tr, inl NotAScalar) /\
    omap mark tr
    = log_marks cfg (iter w) ++ [Saved (iter w); Tested (iter w)].
Proof.
  intros Hlog Htest (Hsave & Hshow & Hcollect) Hdue Hex.
  apply Z.eqb_neq in Hlog. apply Z.eqb_neq in Htest.
  unfold after_step, py_mod, log_marks. rewrite Hlog, Htest. run.
  destruct (iter w `mod` log_interval cfg =? 0);
    [ pose proof (show_log_marks meters lrb lrt lrl lwe lwl w) as Hm;
      destruct (show_log_run cfg meters lrb lrt lrl lwe lwl w)
        as (t1 & Hs & _);
      rewrite Hs in Hm |- *; cbn in Hm | ];
    cbn; rewrite ?Hsave, ?Hshow, Hdue; cbn;
    match goal with
    | |- context [_test cfg tl ?w0] =>
        destruct (test_aborts cfg tl w0 Hex) as (t2 & Ht);
        pose proof (test_marks tl w0) as Htt;
        rewrite Ht in Htt |- *; cbn in Htt;
        rewrite ?Hsave, ?Hshow in Htt
    end;
    cbn; eexists; (split; [reflexivity |]); marks_tac.
Qed.

(** X7. Every pass of the loop body runs exactly one forward pass in
    training mode, on its batch, whatever mode the module was left in,
    then one backward pass on the total loss and one step of each
    optimizer, in the order backbone, top, local; this whether or not the
    rest of the pass returns.  An evaluation pass runs none of them. *)
Theorem one_update_per_pass tl st meters end_ x w :
  let tr := (train_iteration cfg tl st meters end_ x w).1 in
  List.filter is_train_forward tr = [EvForward true (grad_enabled w) (seq x)] /\
  List.filter is_update tr
  = [ EvBackward
        (total_loss (scheduled_lw cfg Early w) (scheduled_lw cfg LocalTerm w)
           (early_term cfg x w) (local_term cfg x w));
      EvOptimStep Backbone; EvOptimStep Top; EvOptimStep Local ] /\
  forall tl' w',
    List.filter is_train_forward (_test cfg tl' w').1 = [] /\
    List.filter is_update (_test cfg tl' w').1 = [].
Proof.
  assert (Hf : forall ev, second_half ev -> is_train_forward ev = false).
  { intros [] H; try reflexivity; try (destruct H; fail).
    repeat match goal with b : bool |- _ => destruct b end;
      first [reflexivity | destruct H]. }
  assert (Hu : forall ev, second_half ev -> is_update ev = false).
  { intros [] H; try reflexivity; destruct H. }
  destruct (train_iteration_meters tl st meters end_ x w)
    as (w1 & _ & Hrun).
  cbn zeta. rewrite (Hrun _ _ (surjective_pairing _)). cbn [fst].
  rewrite !List.filter_app.
  rewrite (emits_filter_nil _ is_train_forward _ w1
             (after_step_second_half _ _ _ _ _ _ _ _) Hf).
  rewrite (emits_filter_nil _ is_update _ w1
             (after_step_second_half _ _ _ _ _ _ _ _) Hu).
  split; [reflexivity |]. split; [reflexivity |].
  intros tl' w'. split.
  - apply (emits_filter_nil _ _ _ _ (test_second_half tl') Hf).
  - apply (emits_filter_nil _ _ _ _ (test_second_half tl') Hu).
Qed.

(** X8. The periodic actions of a pass come in a fixed order and all see
    the counter the pass has just incremented: the log line and
    [show_info] when the counter is a multiple of [log_interval], then the
    checkpoint hook, then, when the counter is a multiple of
    [test_interval], the evaluation and the report of its accuracy to
    [collect], then the summary when the counter is the budget; the pass
    asks the loop to stop exactly in that last case. *)
Theorem pass_milestones tl st meters end_ x w :
  log_interval cfg ≠ 0 -> test_interval cfg ≠ 0 ->
  hooks_keep_iter -> evaluation_returns cfg tl ->
  exists tr meters' w',
    train_iteration cfg tl st meters end_ x w
    = (tr, inr ((meters', iter w + 1 =? num_iter cfg), w')) /\
    omap mark tr = pass_marks cfg (iter w + 1).
Proof.
  intros Hlog Htest Hhooks Heval.
  destruct (train_iteration_pass tl st meters end_ x w Hlog Htest Hhooks
              Heval) as (tr & w' & Hrun & _ & Hm).
  eauto.
Qed.

(** X9. A zero interval stops the first pass with [ZeroDivisionError]:
    with [log_interval = 0] before any periodic action, so that nothing is
    saved; with [test_interval = 0] after the logging and the checkpoint
    hook of that pass. *)
Theorem zero_interval_raises tl st meters end_ x w :
  hooks_keep_iter ->
  log_interval cfg = 0 \/ test_interval cfg = 0 ->
  exists tr,
    train_iteration cfg tl st meters end_ x w = (tr, inl ZeroDivisionError) /\
    omap mark tr
    = if log_interval cfg =? 0 then []
      else log_marks cfg (iter w + 1) ++ [Saved (iter w + 1)].
Proof.
  intros Hhooks Hz.
  destruct (train_iteration_meters tl st meters end_ x w)
    as (w1 & Hi & Hrun).
  destruct (after_step_zero_interval tl st (step_meters cfg meters end_ x w)
              (scheduled_lr cfg Backbone w) (scheduled_lr cfg Top w)
              (scheduled_lr cfg Local w) (scheduled_lw cfg Early w)
              (scheduled_lw cfg LocalTerm w) w1 Hhooks Hz)
    as (tr & Ha & Hm).
  rewrite Hi in Hm. rewrite (Hrun _ _ Ha).
  eexists. split; [reflexivity |]. rewrite omap_app, Hm. reflexivity.
Qed.

(** X10. When an evaluation is due and the test loader holds a batch that
    is not a single sample, the pass stops with the error of
    [label.item()]: after the checkpoint hook of that pass, and before
    anything is reported to [collect]. *)
Theorem failed_evaluation_aborts_pass tl st meters end_ x w :
  log_interval cfg ≠ 0 -> test_interval cfg ≠ 0 ->
  hooks_keep_iter ->
  (iter w + 1) `mod` test_interval cfg = 0 ->
  Exists (fun b => ~ single_sample b) (batches tl) ->
  exists tr,
    train_iteration cfg tl st meters end_ x w = (tr, inl NotAScalar) /\
    omap mark tr
    = log_marks cfg (iter w + 1)
        ++ [Saved (iter w + 1); Tested (iter w + 1)].
Proof.
  intros Hlog Htest Hhooks Hdue Hex.
  destruct (train_iteration_meters tl st meters end_ x w)
    as (w1 & Hi & Hrun).
  rewrite <- Hi in Hdue.
  destruct (after_step_failed_evaluation tl st
              (step_meters cfg meters end_ x w)
              (scheduled_lr cfg Backbone w) (scheduled_lr cfg Top w)
              (scheduled_lr cfg Local w) (scheduled_lw cfg Early w)
              (scheduled_lw cfg LocalTerm w) w1 Hlog Htest Hhooks Hdue Hex)
    as (tr & Ha & Hm).
  rewrite Hi in Hm. rewrite (Hrun _ _ Ha).
  eexists. split; [reflexivity |]. rewrite omap_app, Hm. reflexivity.
Qed.

(** X11. The meters a pass hands to the next one: the six updates of the
    pass on the meters it was given (data time, model time, the two losses
    and their two counts), all reset when the pass has logged, that is
    when its counter is a multiple of [log_interval]. *)
Theorem pass_meters tl st meters end_ x w tr meters' b w' :
  train_iteration cfg tl st meters end_ x w = (tr, inr ((meters', b), w')) ->
  meters' = if (iter w + 1) `mod` log_interval cfg =? 0
            then meter_reset <$> step_meters cfg meters end_ x w
            else step_meters cfg meters end_ x w.
Proof.
  intros H.
  destruct (train_iteration_meters tl st meters end_ x w)
    as (w1 & Hi & Hrun).
  rewrite (Hrun _ _ (surjective_pairing _)) in H. rewrite <- Hi.
  injection H as _ H.
  eapply (after_step_meters tl st _ _ _ _ _ _ w1 _ meters' b w').
  rewrite <- H. apply surjective_pairing.
Qed.

(** *** The loop and the run *)

(** Splits on the comparisons of [passes]. *)
Ltac passes_tac :=
  unfold passes;
  repeat match goal with
         | |- context [?a <? ?b] => destruct (Z.ltb_spec a b)
         | |- context [?a <=? ?b] => destruct (Z.leb_spec a b)
         end;
  cbn [andb]; lia.

Lemma passes_nil start : passes cfg start 0 = 0.
Proof. passes_tac. Qed.

Lemma passes_hit start len :
  start + 1 = num_iter cfg -> passes cfg start (S len) = 1.
Proof.
  intros E. passes_tac.
Qed.

Lemma passes_cons start len :
  start + 1 ≠ num_iter cfg ->
  passes cfg start (S len) = 1 + passes cfg (start + 1) len.
Proof.
  intros E. passes_tac.
Qed.

Lemma passes_bounds start len : 0 <= passes cfg start len <= Z.of_nat len.
Proof.
  passes_tac.
Qed.

Lemma run_marks_cons first n :
  0 < n ->
  run_marks cfg first n = pass_marks cfg first ++ run_marks cfg (first + 1) (n - 1).
Proof.
  intros Hn. unfold run_marks. rewrite seqZ_cons by exact Hn.
  replace (Z.succ first) with (first + 1) by lia.
  replace (Z.pred n) with (n - 1) by lia.
  reflexivity.
Qed.

Lemma train_loop_marks tl st : forall xs meters end_ w,
  log_interval cfg ≠ 0 -> test_interval cfg ≠ 0 ->
  hooks_keep_iter -> evaluation_returns cfg tl ->
  exists tr w',
    train_loop cfg tl st meters end_ xs w = (tr, inr (tt, w')) /\
    iter w' = iter w + passes cfg (iter w) (length xs) /\
    omap mark tr
    = run_marks cfg (iter w + 1) (passes cfg (iter w) (length xs)).
Proof.
  induction xs as [| x xs IH]; intros meters end_ w Hlog Htest Hhooks Heval.
  - exists [], w. cbn [length]. rewrite passes_nil.
    repeat split. lia.
  - destruct (train_iteration_pass tl st meters end_ x w Hlog Htest Hhooks
                Heval) as (t1 & w1 & Hrun & Hi & Hm).
    cbn [train_loop length]. rewrite bind_unfold, Hrun. cbn [fst snd].
    destruct (iter w + 1 =? num_iter cfg) eqn:Hfin.
    + apply Z.eqb_eq in Hfin. rewrite (passes_hit _ _ Hfin). cbn.
      exists (t1 ++ []), w1. split; [reflexivity |].
      rewrite app_nil_r. split; [lia |].
      rewrite Hm, run_marks_cons by lia. unfold run_marks. cbn.
      by rewrite app_nil_r.
    + apply Z.eqb_neq in Hfin. rewrite (passes_cons _ _ Hfin).
      rewrite bind_unfold, now_run. cbn [fst snd].
      destruct (IH (if (iter w + 1) `mod` log_interval cfg =? 0
                    then meter_reset <$> step_meters cfg meters end_ x w
                    else step_meters cfg meters end_ x w)
                  (clock (ticks w1)) (set_ticks (S (ticks w1)) w1)
                  Hlog Htest Hhooks Heval)
        as (t2 & w2 & Hloop & Hi2 & Hm2).
      rewrite Hloop. cbn in Hi2, Hm2 |- *. rewrite Hi in Hi2, Hm2.
      exists (t1 ++ t2), w2. split; [reflexivity |]. split; [lia |].
      pose proof (passes_bounds (iter w + 1) (length xs)) as Hb.
      rewrite omap_app, Hm, Hm2, (run_marks_cons (iter w + 1)) by lia.
      do 2 f_equal. lia.
Qed.

Lemma train_run w :
  known_optimizer cfg ->
  log_interval cfg ≠ 0 -> test_interval cfg ≠ 0 ->
  hooks_keep_iter ->
  evaluation_returns cfg (build_data cfg).2 ->
  exists tr w',
    train cfg w = (tr, inr (tt, w')) /\
    iter w'
    = iter (load (prepared cfg w))
      + passes cfg (iter (load (prepared cfg w)))
          (length (batches (build_data cfg).1)) /\
    omap mark tr
    = (if test_before_train cfg
       then [Tested (iter (load (prepared cfg w)))] else [])
        ++ run_marks cfg (iter (load (prepared cfg w)) + 1)
             (passes cfg (iter (load (prepared cfg w)))
                (length (batches (build_data cfg).1))).
Proof.
  intros Hopt Hlog Htest Hhooks Heval.
  unfold train, prepared, optimizer_builder, build_optimizer.
  destruct (build_data cfg) as [trl tel]. cbn [fst snd] in Heval |- *.
  destruct Hopt as [E | E]; rewrite E; run;
    destruct (print_model cfg), (test_before_train cfg); cbn;
    try match goal with
        | |- context [_test cfg tel ?w0] =>
            destruct (test_returns cfg tel w0 Heval)
              as (tt & acc & w2 & Ht & Hi);
            pose proof (test_marks tel w0) as Htt;
            rewrite Ht in Htt |- *; cbn in Htt, Hi
        end;
    cbn;
    match goal with
    | |- context [train_loop cfg tel ?st ?m ?e (batches trl) ?w0] =>
        destruct (train_loop_marks tel st (batches trl) m e w0
                    Hlog Htest Hhooks Heval)
          as (tl & w3 & Hloop & Hi3 & Hm3);
        rewrite Hloop; cbn in Hi3, Hm3 |- *;
        rewrite ?Hi in Hi3, Hm3
    end;
    do 2 eexists; (split; [reflexivity |]); (split; [exact Hi3 |]);
    marks_tac; exact Hm3.
Qed.

Lemma train_returns_from w (n : nat) :
  known_optimizer cfg ->
  log_interval cfg ≠ 0 -> test_interval cfg ≠ 0 ->
  hooks_keep_iter ->
  evaluation_returns cfg (build_data cfg).2 ->
  iter (load (prepared cfg w)) + Z.of_nat (S n) = num_iter cfg ->
  (S n <= length (batches (build_data cfg).1))%nat ->
  exists tr w' k,
    train cfg w = (tr, inr (tt, w')) /\
    iter w' = num_iter cfg /\
    length (List.filter is_increment tr) = S n /\
    last tr = Some (summary (clock (ticks w)) (clock k) w').
Proof.
  intros Hopt Hlog Htest Hhooks Heval Hn Hlen. revert Hn Hlen.
  unfold train, prepared, optimizer_builder, build_optimizer.
  destruct (build_data cfg) as [trl tel]. cbn [fst snd] in Heval |- *.
  destruct Hopt as [E | E]; rewrite E; run; intros Hn Hlen;
    destruct (print_model cfg), (test_before_train cfg); cbn;
    try match goal with
        | |- context [_test cfg tel ?w0] =>
            destruct (test_returns cfg tel w0 Heval)
              as (tt & acc & w2 & Ht & Hi);
            pose proof (emits_filter_nil _ is_increment _ w0
                          (test_emits cfg tel) ltac:(by intros [])) as Hti;
            rewrite Ht in Hti |- *; cbn in Hti, Hi
        end;
    cbn;
    match goal with
    | |- context [train_loop cfg tel ?st ?m ?e (batches trl) ?w0] =>
        destruct (train_loop_returns cfg tel st n (batches trl) m e w0
                    Hlog Htest Hhooks Heval)
          as (tl & w3 & Hloop & Hi3 & Hinc & _ & k & Hk);
        [ cbn; rewrite ?Hi; exact Hn | exact Hlen | ];
        rewrite Hloop; cbn
    end;
    do 3 eexists; (split; [reflexivity |]); (split; [exact Hi3 |]);
    (split; [filter_tac; rewrite ?Hinc; reflexivity |]);
    repeat first [rewrite last_cons | rewrite last_app];
    rewrite Hk; reflexivity.
Qed.

(** C7, as the code has it.  [train] counts from the iteration the
    inherited [load] leaves.  When that iteration lies below the budget
    [num_iter] and the train loader has at least as many batches as are
    left to the budget, [train] returns; the counter then equals
    [num_iter], the last thing done was to print the summary (best
    accuracy, best iteration, work directory, time elapsed since the
    start), and the counter was incremented exactly [num_iter] minus the
    loaded iteration times: [num_iter] times for a run that starts at 0,
    fewer for a resumed one. *)
Theorem train_stops_at_budget (w : World) :
  known_optimizer cfg ->
  log_interval cfg ≠ 0 -> test_interval cfg ≠ 0 ->
  hooks_keep_iter ->
  evaluation_returns cfg (build_data cfg).2 ->
  iter (load (prepared cfg w)) < num_iter cfg ->
  (Z.to_nat (num_iter cfg - iter (load (prepared cfg w)))
   <= length (batches (build_data cfg).1))%nat ->
  exists tr w' k,
    train cfg w = (tr, inr (tt, w')) /\
    iter w' = num_iter cfg /\
    length (List.filter is_increment tr)
    = Z.to_nat (num_iter cfg - iter (load (prepared cfg w))) /\
    (iter (load (prepared cfg w)) = 0 ->
     length (List.filter is_increment tr) = Z.to_nat (num_iter cfg)) /\
    last tr
    = Some (EvPrintLog
              (MsgBest (best_acc w') (best_iter w') work_dir
                 (convert_time (ssub (clock k) (clock (ticks w)))))).
Proof.
  intros Hopt Hlog Htest Hhooks Heval Hlt Hlen.
  assert (Hn : exists n : nat,
             num_iter cfg - iter (load (prepared cfg w)) = Z.of_nat (S n)).
  { exists (Z.to_nat (num_iter cfg - iter (load (prepared cfg w))) - 1)%nat.
    lia. }
  destruct Hn as [n Hn].
  destruct (train_returns_from w n Hopt Hlog Htest Hhooks Heval)
    as (tr & w' & k & Hrun & Hi & Hinc & Hlast); [lia | lia |].
  exists tr, w', k. split; [exact Hrun |]. split; [exact Hi |].
  split; [rewrite Hinc; lia |]. split; [| exact Hlast].
  intros H0. rewrite Hinc. lia.
Qed.

Lemma run_marks_summary first n :
  Summarised ∈ run_marks cfg first n -> first <= num_iter cfg < first + n.
Proof.
  intros H. unfold run_marks in H.
  apply list_elem_of_In, in_concat in H as (l & Hl & Hx).
  apply list_elem_of_In, list_elem_of_fmap in Hl as (i & -> & Hi).
  apply elem_of_seqZ in Hi. apply list_elem_of_In in Hx.
  unfold pass_marks in Hx. rewrite !elem_of_app in Hx.
  destruct (Z.eqb_spec i (num_iter cfg)) as [<- | _]; [lia |].
  exfalso.
  destruct Hx as [Hx | [Hx | [Hx | Hx]]];
    repeat match type of Hx with
           | context [if ?c then _ else _] => destruct c
           end;
    repeat (apply elem_of_cons in Hx as [Hx | Hx]; [discriminate |]);
    by apply elem_of_nil in Hx.
Qed.

(** X12. The milestones of a whole run.  [train] starts from the counter
    the inherited [load] leaves, runs the evaluation asked for by
    [test_before_train] at that counter without reporting it to [collect],
    and then makes one pass per batch, each with the milestones of its
    counter, until the pass that reaches the budget or, when the budget
    is not met, the end of the train loader. *)
Theorem train_milestones w :
  known_optimizer cfg ->
  log_interval cfg ≠ 0 -> test_interval cfg ≠ 0 ->
  hooks_keep_iter ->
  evaluation_returns cfg (build_data cfg).2 ->
  exists tr w',
    train cfg w = (tr, inr (tt, w')) /\
    iter w'
    = iter (load (prepared cfg w))
      + passes cfg (iter (load (prepared cfg w)))
          (length (batches (build_data cfg).1)) /\
    omap mark tr
    = (if test_before_train cfg
       then [Tested (iter (load (prepared cfg w)))] else [])
        ++ run_marks cfg (iter (load (prepared cfg w)) + 1)
             (passes cfg (iter (load (prepared cfg w)))
                (length (batches (build_data cfg).1))).
Proof. apply train_run. Qed.

(** X13. When the budget is not met within the train loader, because the
    loader has fewer batches than are left to the budget or because the
    counter [load] leaves is already at or past it, [train] returns after
    the last batch without printing the summary, the counter advanced by
    the number of batches. *)
Theorem short_loader_ends_without_summary w :
  known_optimizer cfg ->
  log_interval cfg ≠ 0 -> test_interval cfg ≠ 0 ->
  hooks_keep_iter ->
  evaluation_returns cfg (build_data cfg).2 ->
  num_iter cfg <= iter (load (prepared cfg w)) \/
  iter (load (prepared cfg w))
    + Z.of_nat (length (batches (build_data cfg).1)) < num_iter cfg ->
  exists tr w',
    train cfg w = (tr, inr (tt, w')) /\
    iter w'
    = iter (load (prepared cfg w))
      + Z.of_nat (length (batches (build_data cfg).1)) /\
    Summarised ∉ omap mark tr.
Proof.
  intros Hopt Hlog Htest Hhooks Heval Hshort.
  destruct (train_run w Hopt Hlog Htest Hhooks Heval)
    as (tr & w' & Hrun & Hi & Hm).
  assert (Hp : passes cfg (iter (load (prepared cfg w)))
                 (length (batches (build_data cfg).1))
               = Z.of_nat (length (batches (build_data cfg).1)))
    by passes_tac.
  rewrite Hp in Hi, Hm.
  exists tr, w'. split; [exact Hrun |]. split; [exact Hi |].
  rewrite Hm. intros Hin. apply elem_of_app in Hin as [Hin | Hin].
  - destruct (test_before_train cfg).
    + apply elem_of_cons in Hin as [Hin | Hin]; [discriminate |].
      by apply elem_of_nil in Hin.
    + by apply elem_of_nil in Hin.
  - apply run_marks_summary in Hin. lia.
Qed.

(** *** The evaluation pass, record by record *)

(** X14. The five lists an evaluation fills stay aligned with the test
    loader: when the loop over the loader returns, it has appended one full
    and one local feature per batch, the labels, views and sequence types
    of the batches in loader order; and when forward passes in evaluation
    mode do not write to the module, the features are those of the module
    as the loop found it. *)
Theorem test_loop_records xs : forall c w tr c' w',
  test_loop xs c w = (tr, inr (c', w')) ->
  label_list c' = label_list c ++ concat (label <$> xs) /\
  view_list c' = view_list c ++ concat (view <$> xs) /\
  seq_type_list c' = seq_type_list c ++ concat (seq_type <$> xs) /\
  length (full_feat_list c') = (length (full_feat_list c) + length xs)%nat /\
  length (local_feat_list c') = (length (local_feat_list c) + length xs)%nat /\
  (training w = false -> (forall m x, (forward false m x).2 = m) ->
   full_feat_list c'
   = full_feat_list c
       ++ ((fun b => to_numpy (forward false (model w) (seq b)).1.1) <$> xs) /\
   local_feat_list c'
   = local_feat_list c
       ++ ((fun b => to_numpy (forward false (model w) (seq b)).1.2) <$> xs)).
Proof.
  induction xs as [| x xs IH]; intros c w tr c' w'.
  - intros [= <- <- <-]. cbn. rewrite !app_nil_r.
    repeat split; lia.
  - simpl test_loop. rewrite bind_unfold, forward_pass_run. cbn [fst snd].
    rewrite bind_unfold, item_run.
    destruct (label x) as [| l [| l2 ls]] eqn:Hl; try discriminate.
    cbn [fst snd].
    match goal with
    | |- context [test_loop xs ?c1 ?w1] =>
        pose proof (IH c1 w1) as IH1;
        destruct (test_loop xs c1 w1) as [t2 [e | [c2 w2]]]
    end; [discriminate |].
    cbn [fst snd]. intros [= <- <- <-].
    destruct (IH1 _ _ _ eq_refl) as (E1 & E2 & E3 & E4 & E5 & E6).
    cbn in E1, E2, E3, E4, E5, E6.
    rewrite fmap_cons. cbn [concat length]. rewrite Hl.
    rewrite E1, E2, E3, E4, E5, !length_app, <- !app_assoc. cbn.
    do 5 (split; [first [reflexivity | lia] |]).
    intros Htr Hfr. destruct (E6 Htr Hfr) as [F1 F2].
    rewrite F1, F2, Htr, Hfr. split; by rewrite <- app_assoc.
Qed.

Lemma accs_lookup (acc_full acc_local : list Scalar) :
  let accs : gmap string (list Scalar) :=
    <["local" := acc_local]> (<["full" := acc_full]> ∅) in
  let target := default "full" (target_acc cfg) in
  (target_known cfg ->
   accs !! target
   = Some (if String.eqb target "local" then acc_local else acc_full)) /\
  (~ target_known cfg -> accs !! target = None).
Proof.
  cbn zeta. unfold target_known. split.
  - intros [-> | [-> | ->]]; cbn; by simplify_map_eq.
  - intros Hn. destruct (target_acc cfg) as [s |]; [| by destruct Hn; left].
    cbn. rewrite !lookup_insert_ne, lookup_empty; [done | |];
      intros <-; apply Hn; auto.
Qed.

(** X15. The outcomes of the second half of an evaluation.  It reads
    positions 0, 1, 2 of both accuracy lists when the full one has more
    than one entry and position 0 of both otherwise, and raises
    [IndexError] when one is missing; it then raises [KeyError] for a
    [target_acc] other than 'full' and 'local'; otherwise it returns the
    local accuracy for 'local' and the full accuracy for 'full' or no
    setting, and leaves the solver as it found it. *)
Theorem score_outcomes c w :
  (~ score_shape (full_accuracy c) (local_accuracy c) ->
   exists tr, score cfg c w = (tr, inl IndexError)) /\
  (score_shape (full_accuracy c) (local_accuracy c) ->
   ~ target_known cfg ->
   exists tr,
     score cfg c w = (tr, inl (KeyError (default "full" (target_acc cfg))))) /\
  (score_shape (full_accuracy c) (local_accuracy c) ->
   target_known cfg ->
   exists tr,
     score cfg c w
     = (tr, inr (if String.eqb (default "full" (target_acc cfg)) "local"
                 then local_accuracy c else full_accuracy c, w))).
Proof.
  unfold score, full_accuracy, local_accuracy, score_shape, py_getitem.
  set (acc_full := compute_accuracy (full_feat_list c) _ _ _).
  set (acc_local := compute_accuracy (local_feat_list c) _ _ _).
  destruct (accs_lookup acc_full acc_local) as [Hk Hu]. cbn zeta in Hk, Hu.
  repeat split.
  - intros Hs.
    destruct acc_full as [| a1 [| a2 [| a3 ?]]];
      destruct acc_local as [| b1 [| b2 [| b3 ?]]];
      cbn in Hs; try (exfalso; apply Hs; split; (reflexivity || lia));
      run; eauto.
  - intros Hs Hn. rewrite (Hu Hn).
    destruct acc_full as [| a1 [| a2 [| a3 ?]]];
      destruct acc_local as [| b1 [| b2 [| b3 ?]]];
      cbn in Hs; try (exfalso; lia); run; eauto.
  - intros Hs Hn. rewrite (Hk Hn).
    destruct acc_full as [| a1 [| a2 [| a3 ?]]];
      destruct acc_local as [| b1 [| b2 [| b3 ?]]];
      cbn in Hs; try (exfalso; lia); run; eauto.
Qed.

End Further.

(** The premises on the integer instance. *)

Lemma toy_long_evaluation_returns (B : Baseline) :
  (forall f v t l, length (compute_accuracy f v t l) = 1%nat) ->
  evaluation_returns toy_cfg_long toy_testloader.
Proof.
  intros H. split; [| split].
  - repeat constructor.
  - left. exact H.
  - right. left. reflexivity.
Defined.

Lemma build_optimizer_groups_witness :
  exists w',
    build_optimizer toy_cfg_no_test toy_world = ([], inr (tt, w')) /\
    (forall g, optimizer_of g w' = (1, 0)).
Proof.
  destruct (build_optimizer_groups toy_cfg_no_test toy_world)
    as (w' & Hrun & Ho & _).
  - right. reflexivity.
  - exists w'. split; [exact Hrun |].
    intros []; [exact (Ho Backbone) | exact (Ho Top) | exact (Ho Local)].
Defined.

Lemma weights_only_file_needs_optim_false_witness :
  load_checkpoint "weights" true toy_with_weights_file
  = ([], inl (KeyError "optimizer_backbone")) /\
  load_checkpoint "weights" false toy_with_weights_file
  = ([EvPrintLog (MsgLoadWeights "weights")],
     inr (VInt 40, set_model [4; 5] toy_with_weights_file)).
Proof.
  apply (weights_only_file_needs_optim_false "weights" toy_with_weights_file
           toy_weights_file (VInt 40) [4; 5] [4; 5]).
  - cbn. by rewrite lookup_singleton_eq.
  - unfold toy_weights_file. by simplify_map_eq.
  - unfold toy_weights_file. by simplify_map_eq.
  - reflexivity.
  - unfold toy_weights_file. by simplify_map_eq.
Defined.

Lemma load_checkpoint_leaves_counter_witness :
  exists w',
    load_checkpoint "ckpt" true toy_later
    = ([EvPrintLog (MsgLoadWeightsOptim "ckpt")], inr (VInt 0, w')) /\
    iter w' = 3 /\ best_acc w' = [1] /\ best_iter w' = 2.
Proof.
  pose proof (checkpoint_state_lookups toy_world) as (L1 & L2 & L3 & L4 & L5).
  assert (Hf : fs toy_later !! "ckpt" = Some (checkpoint_state toy_world)).
  { cbn. by rewrite lookup_singleton_eq. }
  pose proof (load_checkpoint_all toy_later "ckpt"
                (checkpoint_state toy_world) (VInt 0) [4; 5] [4; 5]
                (0, 0) (0, 0) (0, 0) (0, 0) (0, 0) (0, 0)
                Hf L1 L2 L3 L4 L5 eq_refl eq_refl eq_refl eq_refl) as H.
  destruct (load_checkpoint_leaves_counter "ckpt" true toy_later _ _ _ H)
    as (Hi & Ha & Hb & _).
  eexists. split; [exact H |]. split; [exact Hi |].
  split; [exact Ha | exact Hb].
Defined.

Lemma save_checkpoint_overwrites_witness :
  exists w3,
    save_checkpoint "b"
      (set_fs (<["a" := checkpoint_state toy_world]> (fs toy_world)) toy_later)
    = ([EvPrintLog (MsgSaveCheckpoint "b")], inr (3, w3)) /\
    fs w3 !! "a" = Some (checkpoint_state toy_world) /\
    fs w3 !! "ckpt" = None.
Proof.
  destruct (save_checkpoint_overwrites "a" "b" toy_world
              (set_fs (<["a" := checkpoint_state toy_world]> (fs toy_world))
                 toy_later) eq_refl)
    as (w3 & Hrun & _ & Ha & Hother).
  exists w3. split; [exact Hrun |]. split; [by apply Ha |].
  by rewrite Hother.
Defined.

Lemma pass_milestones_witness :
  exists tr meters' w',
    train_iteration toy_cfg toy_testloader 0 ∅ 0 (toy_batch 1)
      (set_iter 9 toy_world)
    = (tr, inr ((meters', true), w')) /\
    omap mark tr
    = [Logged 10; Shown; Saved 10; Tested 10; Reported; Summarised].
Proof.
  apply (pass_milestones toy_cfg toy_testloader 0 ∅ 0 (toy_batch 1)
           (set_iter 9 toy_world)).
  - discriminate.
  - discriminate.
  - exact toy_hooks_keep_iter.
  - exact toy_evaluation_returns.
Defined.

Lemma zero_interval_raises_witness :
  exists tr,
    train_iteration toy_cfg_no_test toy_testloader 0 ∅ 0 (toy_batch 1)
      (set_iter 1 toy_world)
    = (tr, inl ZeroDivisionError) /\
    omap mark tr = [Logged 2; Shown; Saved 2].
Proof.
  apply (zero_interval_raises toy_cfg_no_test toy_testloader 0 ∅ 0
           (toy_batch 1) (set_iter 1 toy_world)).
  - exact toy_hooks_keep_iter.
  - right. reflexivity.
Defined.

Lemma failed_evaluation_aborts_pass_witness :
  exists tr,
    train_iteration toy_cfg toy_pairs_loader 0 ∅ 0 (toy_batch 1)
      (set_iter 4 toy_world)
    = (tr, inl NotAScalar) /\
    omap mark tr = [Saved 5; Tested 5].
Proof.
  apply (failed_evaluation_aborts_pass toy_cfg toy_pairs_loader 0 ∅ 0
           (toy_batch 1) (set_iter 4 toy_world)).
  - discriminate.
  - discriminate.
  - exact toy_hooks_keep_iter.
  - reflexivity.
  - right. left. unfold single_sample. cbn. lia.
Defined.

Lemma pass_meters_witness :
  exists tr meters' b w',
    train_iteration toy_cfg toy_testloader 0 ∅ 0 (toy_batch 1)
      (set_iter 1 toy_world)
    = (tr, inr ((meters', b), w')) /\
    meters'
    = meter_reset
        <$> step_meters toy_cfg ∅ 0 (toy_batch 1) (set_iter 1 toy_world).
Proof.
  destruct (train_iteration_pass toy_cfg toy_testloader 0 ∅ 0 (toy_batch 1)
              (set_iter 1 toy_world)) as (tr & w' & H & _).
  - discriminate.
  - discriminate.
  - exact toy_hooks_keep_iter.
  - exact toy_evaluation_returns.
  - do 4 eexists. split; [exact H |].
    exact (pass_meters toy_cfg toy_testloader 0 ∅ 0 (toy_batch 1)
             (set_iter 1 toy_world) tr _ _ w' H).
Defined.

Lemma train_milestones_witness :
  exists tr w',
    @train toy_torch toy_resuming toy_cfg_long toy_world
    = (tr, inr (tt, w')) /\
    iter w' = 20 /\
    omap mark tr
    = [ Tested 15; Logged 16; Shown; Saved 16; Saved 17;
        Saved 18; Tested 18; Reported; Saved 19;
        Logged 20; Shown; Saved 20; Summarised ].
Proof.
  apply (@train_milestones toy_torch toy_resuming toy_cfg_long toy_world).
  - left. reflexivity.
  - discriminate.
  - discriminate.
  - repeat split.
  - apply (toy_long_evaluation_returns toy_resuming). reflexivity.
Defined.

Lemma short_loader_ends_without_summary_witness :
  exists tr w',
    train toy_cfg_long toy_world = (tr, inr (tt, w')) /\
    iter w' = 12 /\
    Summarised ∉ omap mark tr.
Proof.
  destruct (short_loader_ends_without_summary toy_cfg_long toy_world)
    as (tr & w' & Hrun & Hi & Hs).
  - left. reflexivity.
  - discriminate.
  - discriminate.
  - exact toy_hooks_keep_iter.
  - apply (toy_long_evaluation_returns toy_baseline). reflexivity.
  - right. vm_compute. reflexivity.
  - exists tr, w'. split; [exact Hrun |]. split; [exact Hi | exact Hs].
Defined.

Lemma test_loop_records_witness :
  exists tr c',
    test_loop (batches toy_testloader) no_records toy_world
    = (tr, inr (c', toy_world)) /\
    label_list c' = [7; 8] /\
    view_list c' = ["090"; "090"] /\
    full_feat_list c' = [16; 17] /\
    local_feat_list c' = [-2; -1].
Proof.
  assert (H : test_loop (batches toy_testloader) no_records toy_world
              = ([EvForward false true 7; EvForward false true 8],
                 inr ({| full_feat_list := [16; 17];
                         local_feat_list := [-2; -1];
                         view_list := ["090"; "090"];
                         seq_type_list := ["nm-01"; "nm-01"];
                         label_list := [7; 8] |}, toy_world)))
    by reflexivity.
  destruct (test_loop_records (batches toy_testloader) no_records
              toy_world _ _ _ H) as (E1 & E2 & _ & _ & _ & E6).
  destruct (E6 eq_refl (fun m x => eq_refl)) as [F1 F2].
  do 2 eexists. split; [exact H |].
  split; [exact E1 |]. split; [exact E2 |]. split; [exact F1 | exact F2].
Defined.

Lemma load_checkpoint_failures_witness :
  load_checkpoint "none" true toy_world = ([], inl (FileNotFoundError "none")) /\
  load_checkpoint "w" false
    (set_fs {["w" := {["iteration" := VInt 1]}]} toy_world)
  = ([], inl (KeyError "model")).
Proof.
  split.
  - apply (proj1 (load_checkpoint_failures "none" true toy_world)).
    reflexivity.
  - apply (proj2 (load_checkpoint_failures "w" false
                    (set_fs {["w" := {["iteration" := VInt 1]}]} toy_world))
             {["iteration" := VInt 1]}).
    + cbn. by rewrite lookup_singleton_eq.
    + exists (VInt 1). by rewrite lookup_singleton_eq.
    + by rewrite lookup_singleton_ne.
Defined.

Lemma load_checkpoint_returns_iff_witness :
  (exists tr v w',
     load_checkpoint "weights" false toy_with_weights_file
     = (tr, inr (v, w'))) /\
  ~ (exists tr v w',
       load_checkpoint "weights" true toy_with_weights_file
       = (tr, inr (v, w'))).
Proof.
  split.
  - apply (proj2 (load_checkpoint_returns_iff "weights" false
                    toy_with_weights_file)).
    exists toy_weights_file, (VInt 40), [4; 5].
    split; [cbn; by rewrite lookup_singleton_eq |].
    unfold toy_weights_file.
    split; [by simplify_map_eq |]. split; [by simplify_map_eq |].
    split; [by eexists | discriminate].
  - intros H.
    apply (proj1 (load_checkpoint_returns_iff "weights" true
                    toy_with_weights_file)) in H
      as (state & it & sd & Hf & _ & _ & _ & Ho).
    destruct (Ho eq_refl Backbone) as (osd & Hb & _).
    cbn in Hf. rewrite lookup_singleton_eq in Hf. injection Hf as <-.
    unfold toy_weights_file in Hb. by simplify_map_eq.
Defined.

Lemma score_outcomes_witness :
  (exists tr,
     score toy_cfg_bad_target toy_records toy_world
     = (tr, inl (KeyError "best"))) /\
  (exists tr,
     score toy_cfg_no_test toy_records toy_world
     = (tr, inr ([-3], toy_world))).
Proof.
  split.
  - apply (proj1 (proj2 (score_outcomes toy_cfg_bad_target toy_records
                           toy_world))).
    + split; [reflexivity | cbn; lia].
    + intros [H | [H | H]]; discriminate H.
  - destruct (proj2 (proj2 (score_outcomes toy_cfg_no_test toy_records
                              toy_world))) as [tr H].
    + split; [reflexivity | cbn; lia].
    + right. right. reflexivity.
    + exists tr. exact H.
Defined.

Lemma train_stops_at_budget_witness :
  exists tr w',
    @train toy_torch (toy_resumed 4) toy_cfg toy_world
    = (tr, inr (tt, w')) /\
    iter w' = 10 /\
    length (List.filter is_increment tr) = 6%nat /\
    last tr
    = Some (EvPrintLog
              (MsgBest (best_acc w') (best_iter w') "work" "elapsed")).
Proof.
  destruct (@train_stops_at_budget toy_torch (toy_resumed 4) toy_cfg
              toy_world)
    as (tr & w' & k & Hrun & Hi & Hinc & _ & Hlast).
  - left. reflexivity.
  - discriminate.
  - discriminate.
  - repeat split.
  - split; [repeat constructor | split; left; reflexivity].
  - cbn. lia.
  - vm_compute. lia.
  - exists tr, w'. split; [exact Hrun |]. split; [exact Hi |].
    split; [exact Hinc | exact Hlast].
Defined.

(** C7, as stated, fails: a run that [load] resumes at iteration 4, with a
    budget of 10 and a train loader of twelve batches, stops at the budget
    with the summary after six iterations, not ten. *)
Lemma resumed_run_makes_fewer_iterations :
  1 <= num_iter toy_cfg /\
  (Z.to_nat (num_iter toy_cfg) <= length (batches toy_trainloader))%nat /\
  List.filter is_increment
    (@train toy_torch (toy_resumed 4) toy_cfg toy_world).1
  = replicate 6 EvIncrement /\
  match (@train toy_torch (toy_resumed 4) toy_cfg toy_world).2 with
  | inr (_, w') => iter w' = num_iter toy_cfg
  | inl _ => False
  end /\
  length (replicate 6 (@EvIncrement toy_torch)) <> Z.to_nat (num_iter toy_cfg).
Proof.
  vm_compute. repeat split; try discriminate. lia.
Qed.
